(** * smart-error: a shallow embedding of [index.js]

    The module exports one function, [create (name, errors)], which builds
    a fresh [SmartError] constructor: a subclass of [Error] whose instances
    carry a code, optional metadata, an optional cause and a captured stack,
    and whose prototype is given accessors ([name], [code], [message], ...),
    three methods ([toJSON], [toString], [toDetailedString]) and, for every
    key of [errors], a static creator and an [is<key>] accessor.

    Layout of this file:
    - the JavaScript values the development ranges over;
    - the language substrate the source relies on ([typeof], template-literal
      string conversion, property reads, [Object.keys], [instanceof]);
    - the source functions, one definition each, in the order of the file;
    - the theorems.

    Scope.  Caller data are primitives, plain objects, arrays and generic
    [Error] objects, all with data properties only; function values and
    built-in prototype objects appear where a property read reaches them,
    as opaque values.  Code of the caller is followed in one place, the
    call [cause.toJSON ('cause')] of line 114 ([toJSON_with]).  The module
    is CommonJS code without a strict-mode directive, so assignments to
    non-writable properties are ignored.  The stack trace of an instance is
    an input of its constructor, and so is the text by which the engine
    names a callee that is not a function. *)

From Stdlib Require Import ZArith DecimalString DecimalPos DecimalZ.
From stdpp Require Import gmap strings list.

Set Warnings "-register-all".

Local Open Scope string_scope.
Local Open Scope Z_scope.

(** ** Values *)

(** Heap addresses of mutable plain objects. *)
Abbreviation loc := nat.

(** Caller-supplied data.  Plain objects ([{...}], prototype
    [Object.prototype]) live in the heap, because the source keeps a
    reference to one of them (the [errors] table) and reads it later.
    Arrays and generic [Error] objects are immutable trees of their own
    properties; an [Error] also records which of its own properties are not
    enumerable ([hidden]: [message] and [stack] when the constructor wrote
    them, not when the caller assigned them to an error that had none).
    Numbers are integers; JavaScript prints the safe ones, up to
    [2^53 - 1] in absolute value, in plain decimal ([safe_integers]). *)
Inductive datum :=
| DUndefined
| DNull
| DBool (b : bool)
| DNumber (n : Z)
| DString (s : string)
| DObject (l : loc)
| DArray (xs : list datum)
| DError (hidden : list string) (props : list (string * datum)).

(** Own properties of a plain object, in order of creation; every property
    is an enumerable data property.  When a key occurs twice the first
    binding is the property. *)
Abbreviation object := (list (string * datum)).

(** The store: the heap of plain objects, and the number of constructor
    functions created so far (each call of [create] evaluates the function
    declaration [SmartError] anew, which yields a new function object). *)
Record state := State {
  heap : gmap loc object;
  next_id : nat
}.

(** First binding of a key in an association list. *)
Fixpoint assoc {A} (k : string) (l : list (string * A)) : option A :=
  match l with
  | [] => None
  | (k', a) :: l' => if String.eqb k k' then Some a else assoc k l'
  end.

Definition heap_object (st : state) (l : loc) : object :=
  default [] (heap st !! l).

(** ** Language substrate *)

(** [typeof]. *)
Definition typeof (v : datum) : string :=
  match v with
  | DUndefined => "undefined"
  | DNull => "object"
  | DBool _ => "boolean"
  | DNumber _ => "number"
  | DString _ => "string"
  | DObject _ | DArray _ | DError _ _ => "object"
  end.

(** [Number.prototype.toString] on a safe integer, one of absolute value
    at most [2^53 - 1]: the decimal digits, with a sign when negative.
    Beyond that range JavaScript rounds to a double, and from [10^21] on it
    prints an exponent; statements about the text of a number carry the
    hypothesis [safe_integers]. *)
Definition number_to_string (n : Z) : string :=
  NilZero.string_of_int (Z.to_int n).

Definition MAX_SAFE_INTEGER : Z := 2 ^ 53 - 1.

(** Every number inside [v] is a safe integer. *)
Fixpoint safe_integers (v : datum) : bool :=
  match v with
  | DNumber n => bool_decide (Z.abs n <= MAX_SAFE_INTEGER)
  | DArray xs => forallb safe_integers xs
  | DError _ props =>
      forallb (fun p : string * datum => safe_integers p.2) props
  | _ => true
  end.

(** [Array.prototype.join] on already converted elements. *)
Fixpoint join (sep : string) (l : list string) : string :=
  match l with
  | [] => EmptyString
  | [s] => s
  | s :: l' => s ++ sep ++ join sep l'
  end.

(** All conversions succeeded, or one of them threw. *)
Fixpoint sequence {A} (l : list (option A)) : option (list A) :=
  match l with
  | [] => Some []
  | None :: _ => None
  | Some a :: l' => option_map (cons a) (sequence l')
  end.

(** [Error.prototype.toString] from the converted [name] and [message]. *)
Definition error_to_string (name msg : string) : string :=
  if String.eqb name EmptyString then msg
  else if String.eqb msg EmptyString then name
  else name ++ ": " ++ msg.

(** The string conversion of a template literal, [`${v}`].  [None] stands for
    the [TypeError] "Cannot convert object to primitive value": an object
    whose own [toString] property shadows the built-in one holds data there,
    which is not callable, and [valueOf] returns the object itself.
    - a plain object converts through [Object.prototype.toString];
    - an array through [join], where [undefined] and [null] elements give the
      empty string;
    - an [Error] through [Error.prototype.toString], which reads [name]
      (default ["Error"], from [Error.prototype]) and [message] (default
      empty). *)
Fixpoint to_string (st : state) (v : datum) : option string :=
  match v with
  | DUndefined => Some "undefined"
  | DNull => Some "null"
  | DBool b => Some (if b then "true" else "false")
  | DNumber n => Some (number_to_string n)
  | DString s => Some s
  | DObject l =>
      match assoc "toString" (heap_object st l) with
      | Some _ => None
      | None => Some "[object Object]"
      end
  | DArray xs =>
      let elem (x : datum) :=
        match x with
        | DUndefined | DNull => Some EmptyString
        | _ => to_string st x
        end in
      option_map (join ",") (sequence (map elem xs))
  | DError _ props =>
      let conv := map (fun p : string * datum =>
                         let (k, d) := p in
                         (k, match d with
                             | DUndefined => None
                             | _ => Some (to_string st d)
                             end)) props in
      match assoc "toString" conv with
      | Some _ => None
      | None =>
          let field (k dflt : string) : option string :=
            match assoc k conv with
            | Some (Some r) => r
            | Some None | None => Some dflt
            end in
          match field "name" "Error", field "message" EmptyString with
          | Some n, Some m => Some (error_to_string n m)
          | _, _ => None
          end
      end
  end.

(** JavaScript truthiness of caller data. *)
Definition truthy (v : datum) : bool :=
  match v with
  | DUndefined | DNull => false
  | DBool b => b
  | DNumber n => negb (n =? 0)
  | DString s => negb (String.eqb s EmptyString)
  | DObject _ | DArray _ | DError _ _ => true
  end.

(** ** The objects that [create] builds *)

(** Thrown errors. *)
Inductive js_error :=
| TypeError (msg : string)
| RangeError (msg : string).

(** How a call completes: normally, or by throwing. *)
Inductive completion (A : Type) :=
| Ok (a : A)
| Throw (e : js_error).
Arguments Ok {A} a.
Arguments Throw {A} e.

#[global] Instance completion_ret : MRet completion := fun A a => Ok a.

#[global] Instance completion_bind : MBind completion := fun A B f r =>
  match r with
  | Ok a => f a
  | Throw e => Throw e
  end.

(** The accessors and methods that the source defines on
    [SmartError.prototype]. *)
Inductive getter :=
| GName | GCode | GMessage | GMetadata | GCause | GStack | GIsSmartError
| GIs (err : string).

Inductive method := MToJSON | MToString | MToDetailedString.

(** An own property of the object that [SmartError.prototype] denotes:
    an accessor installed by [Object.defineProperty] (all of them with
    [configurable: false]), a method installed by assignment, or the
    [constructor] link that every function's prototype object starts with. *)
Inductive member :=
| MGetter (g : getter)
| MMethod (m : method)
| MConstructor.

(** An own property of the function object [SmartError]. *)
Inductive sval :=
| SNumber (n : Z)             (* [length] *)
| SString (s : string)        (* [name] *)
| SNull                       (* [arguments], [caller] *)
| SErrorCtor                  (* [super_], as [inherits] sets it *)
| SOwnPrototype               (* [prototype], as the function was born *)
| SCreator (err : string).    (* the creator of the code [err] *)

(** What [SmartError.prototype] denotes: the object the function was born
    with (whose prototype [inherits] sets to [Error.prototype]), or a
    creator function that an assignment [SmartError[err] = ...] stored
    under the key ["prototype"]. *)
Inductive proto_kind := POriginal | PFunction.

Record prototype := Prototype {
  p_kind : proto_kind;
  p_members : list (string * member)
}.

(** The [errors] value that the closures of a constructor hold: an object. *)
Inductive table :=
| TObject (l : loc)
| TArray (xs : list datum)
| TError (hidden : list string) (props : list (string * datum)).

(** A constructor function returned by [create], with what its closures
    captured ([name], [errors]) and the own properties of the function
    (all but [prototype] in [v_static]) and of its prototype object. *)
Record variant := Variant {
  v_id : nat;
  v_name : datum;
  v_errors : table;
  v_static : list (string * sval);
  v_proto : prototype
}.

(** Values at large: caller data, built-in functions and objects reached
    through a prototype chain (opaque: the source only passes them on), and
    instances, with their [_props]. *)
Inductive value :=
| VDatum (d : datum)
| VOpaque (path : string)
| VInstance (i : instance)
with instance :=
| Instance (T : variant) (code : string) (metadata cause : value)
           (stack : string).

Definition i_type (i : instance) : variant :=
  let (T, _, _, _, _) := i in T.
Definition i_code (i : instance) : string :=
  let (_, c, _, _, _) := i in c.
Definition i_metadata (i : instance) : value :=
  let (_, _, m, _, _) := i in m.
Definition i_cause (i : instance) : value :=
  let (_, _, _, c, _) := i in c.
Definition i_stack (i : instance) : string :=
  let (_, _, _, _, s) := i in s.

Abbreviation VUndefined := (VDatum DUndefined).
Abbreviation VString s := (VDatum (DString s)).
Abbreviation VBool b := (VDatum (DBool b)).

(** The structure that [toJSON] returns: fresh object literals, whose
    fields hold either nested literals or values embedded as they are. *)
Inductive json :=
| JValue (v : value)
| JObject (fields : list (string * json)).

(** ** Property reads *)

Definition Object_prototype_members : list string :=
  [ "constructor"; "__defineGetter__"; "__defineSetter__"; "hasOwnProperty";
    "__lookupGetter__"; "__lookupSetter__"; "isPrototypeOf";
    "propertyIsEnumerable"; "toString"; "valueOf"; "__proto__";
    "toLocaleString" ].

(** ECMAScript 2023. *)
Definition Array_prototype_members : list string :=
  [ "constructor"; "at"; "concat"; "copyWithin"; "fill"; "find";
    "findIndex"; "findLast"; "findLastIndex"; "lastIndexOf"; "pop"; "push";
    "reverse"; "shift"; "unshift"; "slice"; "sort"; "splice"; "includes";
    "indexOf"; "join"; "keys"; "entries"; "values"; "forEach"; "filter";
    "flat"; "flatMap"; "map"; "every"; "some"; "reduce"; "reduceRight";
    "toLocaleString"; "toString"; "toReversed"; "toSorted"; "toSpliced";
    "with" ].

Definition Function_prototype_members : list string :=
  [ "length"; "name"; "arguments"; "caller"; "constructor"; "apply"; "bind";
    "call"; "toString" ].

Definition mem (k : string) (l : list string) : bool :=
  existsb (String.eqb k) l.

(** A read that reaches [Object.prototype]. *)
Definition Object_prototype_get (k : string) : value :=
  if mem k Object_prototype_members
  then VOpaque ("Object.prototype." ++ k) else VUndefined.

Definition Array_prototype_get (k : string) : value :=
  if mem k Array_prototype_members
  then VOpaque ("Array.prototype." ++ k) else Object_prototype_get k.

Definition Error_prototype_get (k : string) : value :=
  if String.eqb k "name" then VString "Error"
  else if String.eqb k "message" then VString EmptyString
  else if mem k ["constructor"; "toString"]
       then VOpaque ("Error.prototype." ++ k)
       else Object_prototype_get k.

Definition Function_prototype_get (k : string) : value :=
  if mem k Function_prototype_members
  then VOpaque ("Function.prototype." ++ k) else Object_prototype_get k.

Definition index_name (i : nat) : string := number_to_string (Z.of_nat i).

(** Own indexed properties of an array. *)
Definition array_props (xs : list datum) : list (string * datum) :=
  imap (fun i x => (index_name i, x)) xs.

(** [t[k]]: own property first, then the prototype chain of the class. *)
Definition table_get (st : state) (t : table) (k : string) : value :=
  match t with
  | TObject l =>
      match assoc k (heap_object st l) with
      | Some d => VDatum d
      | None => Object_prototype_get k
      end
  | TArray xs =>
      match assoc k (array_props xs) with
      | Some d => VDatum d
      | None =>
          if String.eqb k "length"
          then VDatum (DNumber (Z.of_nat (length xs)))
          else Array_prototype_get k
      end
  | TError _ props =>
      match assoc k props with
      | Some d => VDatum d
      | None => Error_prototype_get k
      end
  end.

(** An array index: the canonical decimal form of an integer below
    [2^32 - 1]. *)
Definition array_index (k : string) : option N :=
  match NilZero.uint_of_string k with
  | Some u =>
      let n := N.of_uint u in
      if String.eqb (NilZero.string_of_uint (N.to_uint n)) k
         && (n <? 4294967295)%N
      then Some n else None
  | None => None
  end.

Fixpoint insert_index (k : string * N) (l : list (string * N))
    : list (string * N) :=
  match l with
  | [] => [k]
  | k' :: l' => if (k.2 <=? k'.2)%N then k :: l else k' :: insert_index k l'
  end.

(** The keys of an association list, each once, in order of first
    occurrence. *)
Fixpoint first_keys {A} (l : list (string * A)) : list string :=
  match l with
  | [] => []
  | (k, _) :: l' =>
      k :: filter (fun k' => negb (String.eqb k k')) (first_keys l')
  end.

(** The order in which an object lists its own keys: array indices in
    ascending order, then the other strings in order of creation. *)
Definition own_key_order (ks : list string) : list string :=
  map fst (foldr insert_index []
             (omap (fun k => pair k <$> array_index k) ks))
  ++ filter (fun k => negb (bool_decide (is_Some (array_index k)))) ks.

(** [Object.keys]: the own enumerable string keys. *)
Definition Object_keys (st : state) (t : table) : list string :=
  match t with
  | TObject l => own_key_order (first_keys (heap_object st l))
  | TArray xs => map fst (array_props xs)
  | TError hidden props =>
      filter (fun k => negb (mem k hidden))
             (own_key_order (first_keys props))
  end.

(** [i instanceof T]: the prototype of an instance is the object that the
    [prototype] property of its constructor denotes, and no two constructors
    share that object. *)
Definition instance_of (i : instance) (T : variant) : bool :=
  Nat.eqb (v_id (i_type i)) (v_id T).

(** [v instanceof Error]: [Error.prototype] is on the chain of a generic
    error, and on the chain of an instance whose constructor still has the
    prototype object that [inherits] linked to [Error.prototype]. *)
Definition instanceof_Error (v : value) : bool :=
  match v with
  | VDatum (DError _ _) => true
  | VInstance i =>
      match p_kind (v_proto (i_type i)) with
      | POriginal => true
      | PFunction => false
      end
  | _ => false
  end.

(** [v != null] is false exactly on [undefined] and [null]. *)
Definition nullish (v : value) : bool :=
  match v with
  | VDatum DUndefined | VDatum DNull => true
  | _ => false
  end.

Definition truthy_value (v : value) : bool :=
  match v with
  | VDatum d => truthy d
  | VOpaque _ | VInstance _ => true
  end.

(** ** The source, function by function *)

(** [assert (name, value, type)], lines 17-23. *)
Definition double_quote : string := String (Ascii.ascii_of_nat 34) EmptyString.

(** The template literal of line 20. *)
Definition assert_message (name type typeOfValue value : string) : string :=
  name ++ ": expected " ++ type ++ "; got " ++ typeOfValue ++ ": "
       ++ double_quote ++ value ++ double_quote.

Definition assert (st : state) (name : string) (value : datum)
    (type : string) : completion unit :=
  let typeOfValue := typeof value in
  if negb (String.eqb typeOfValue type) then
    match to_string st value with
    | Some s => Throw (TypeError (assert_message name type typeOfValue s))
    | None => Throw (TypeError "Cannot convert object to primitive value")
    end
  else Ok tt.

(** The accessors of lines 61-97 and 153-157, run with the closure of the
    constructor [T] and with [this]. *)
Definition run_getter (st : state) (T : variant) (g : getter)
    (this : instance) : value :=
  match g with
  | GName => VDatum (v_name T)
  | GCode => VString (i_code this)
  | GMessage => table_get st (v_errors T) (i_code this)
  | GMetadata => i_metadata this
  | GCause => i_cause this
  | GStack => VString (i_stack this)
  | GIsSmartError => VBool (instance_of this T)
  | GIs err => VBool (String.eqb (i_code this) err)
  end.

(** [SmartError.super_.call(this)], line 49.  [inherits] stores [Error]
    under [super_]; when a creator was stored there instead, the call
    re-enters the constructor, which calls it again, until the engine gives
    up. *)
Definition call_super (T : variant) : completion unit :=
  match assoc "super_" (v_static T) with
  | Some SErrorCtor => Ok tt
  | Some (SCreator _) => Throw (RangeError "Maximum call stack size exceeded")
  | Some _ => Throw (TypeError "SmartError.super_.call is not a function")
  | None =>
      Throw (TypeError "Cannot read properties of undefined (reading 'call')")
  end.

(** [new SmartError (code, metadata, cause, stackFrame)], lines 43-57.
    [stack] is the trace that [Error.captureStackTrace] writes into [_props]
    for this call; [stackFrame] only selects where that trace starts. *)
Definition SmartError (T : variant) (code : string) (metadata cause : value)
    (stack : string) : completion instance :=
  let '(metadata, cause) :=
    if instanceof_Error metadata then (VUndefined, metadata)
    else (metadata, cause) in
  _ ← call_super T;
  Ok (Instance T code metadata cause stack).

(** The static helper of lines 149-151. *)
Definition creator (T : variant) (err : string) (metadata cause : value)
    (stack : string) : completion instance :=
  SmartError T err metadata cause stack.

(** *** Reading a property of an instance *)

(** The readable surface of an instance. *)
Inductive field :=
| FName | FCode | FMessage | FMetadata | FCause | FStack | FIsSmartError
| FIs (err : string)
| FToJSON | FToString | FToDetailedString.

Definition field_name (f : field) : string :=
  match f with
  | FName => "name"
  | FCode => "code"
  | FMessage => "message"
  | FMetadata => "metadata"
  | FCause => "cause"
  | FStack => "stack"
  | FIsSmartError => "isSmartError"
  | FIs err => "is" ++ err
  | FToJSON => "toJSON"
  | FToString => "toString"
  | FToDetailedString => "toDetailedString"
  end.

(** A read that reaches a creator function: an anonymous function
    expression of two parameters (its [arguments] and [caller] are the own
    null-valued properties that V8 gives sloppy-mode functions). *)
Definition creator_function_get (k : string) : value :=
  if String.eqb k "length" then VDatum (DNumber 2)
  else if String.eqb k "name" then VString EmptyString
  else if mem k ["arguments"; "caller"] then VDatum DNull
  else if String.eqb k "prototype" then VOpaque "prototype"
  else Function_prototype_get k.

(** [i.f]: the only own property of an instance is [_props]; everything
    else comes from the object its constructor's [prototype] denotes, then
    from that object's own chain. *)
Definition inst_get (st : state) (i : instance) (f : field) : value :=
  let T := i_type i in
  let k := field_name f in
  match assoc k (p_members (v_proto T)) with
  | Some (MGetter g) => run_getter st T g i
  | Some (MMethod _) => VOpaque ("SmartError.prototype." ++ k)
  | Some MConstructor => VOpaque "SmartError"
  | None =>
      match p_kind (v_proto T) with
      | POriginal => Error_prototype_get k
      | PFunction => creator_function_get k
      end
  end.

(** The properties that [toJSON] reads from a cause. *)
Inductive cause_key := KIsSmartError | KToJSON | KCode | KMessage | KStack.

Definition cause_field (k : cause_key) : field :=
  match k with
  | KIsSmartError => FIsSmartError
  | KToJSON => FToJSON
  | KCode => FCode
  | KMessage => FMessage
  | KStack => FStack
  end.

(** [cause.k] for a cause that is neither [undefined] nor [null].  None of
    the five names is a member of [Boolean.prototype], [Number.prototype] or
    [String.prototype], nor an own property of a built-in function or
    prototype object. *)
Definition read (st : state) (cause : value) (k : cause_key) : value :=
  match cause with
  | VDatum (DObject l) => table_get st (TObject l) (field_name (cause_field k))
  | VDatum (DArray xs) => table_get st (TArray xs) (field_name (cause_field k))
  | VDatum (DError h ps) =>
      table_get st (TError h ps) (field_name (cause_field k))
  | VDatum _ => VUndefined
  | VOpaque _ => VUndefined
  | VInstance i => inst_get st i (cause_field k)
  end.

(** Does [i.toJSON] denote the method of lines 105-129? *)
Definition has_toJSON (i : instance) : bool :=
  match assoc "toJSON" (p_members (v_proto (i_type i))) with
  | Some (MMethod MToJSON) => true
  | _ => false
  end.

(** [SmartError.prototype.toJSON], lines 105-129, as a store transformer.
    [cause.toJSON('cause')] re-enters this function when the cause is an
    instance that has the method; in every other case [cause.toJSON] is
    [undefined] or data, and the call throws.  A cause that holds a
    [toJSON] function of the caller is the matter of [toJSON_with]. *)
Fixpoint toJSON (this : instance) (st : state) {struct this}
    : completion json * state :=
  let (T, code, metadata, cause, stack) := this in
  let result := [("name", JValue (VDatum (v_name T)));
                 ("code", JValue (VString code))] in
  let result :=
    if negb (nullish metadata)
    then (result ++ [("metadata", JValue metadata)])%list else result in
  let finish (result : list (string * json)) : completion json :=
    Ok (JObject (result ++ [("stack", JValue (VString stack))])%list) in
  if negb (nullish cause) then
    if truthy_value (read st cause KIsSmartError) then
      match cause with
      | VInstance c =>
          if has_toJSON c then
            match toJSON c st with
            | (Ok j, st') => (finish (result ++ [("cause", j)])%list, st')
            | (Throw e, st') => (Throw e, st')
            end
          else (Throw (TypeError "cause.toJSON is not a function"), st)
      | _ => (Throw (TypeError "cause.toJSON is not a function"), st)
      end
    else if instanceof_Error cause then
      let reduced :=
        JObject [("code", JValue (read st cause KCode));
                 ("message", JValue (read st cause KMessage));
                 ("stack", JValue (read st cause KStack))] in
      (finish (result ++ [("cause", reduced)])%list, st)
    else (finish (result ++ [("cause", JValue cause)])%list, st)
  else (finish result, st).

(** [SmartError.prototype.toDetailedString], lines 143-145. *)
Definition toDetailedString (st : state) (this : instance) : value :=
  inst_get st this FStack.

(** The string conversion of a value inside a template literal.  [None]:
    the value is a built-in function or object, or an instance, whose
    conversion this development does not follow. *)
Definition template_string (st : state) (v : value)
    : option (completion string) :=
  match v with
  | VDatum d =>
      Some match to_string st d with
           | Some s => Ok s
           | None =>
               Throw (TypeError "Cannot convert object to primitive value")
           end
  | VOpaque _ | VInstance _ => None
  end.

(** [SmartError.prototype.toString], lines 135-137: the template literal
    [`${this.name}: ${this.message}`], whose substitutions are read and
    converted from left to right. *)
Definition toString (st : state) (this : instance)
    : option (completion string) :=
  match template_string st (inst_get st this FName) with
  | None => None
  | Some (Throw e) => Some (Throw e)
  | Some (Ok name) =>
      match template_string st (inst_get st this FMessage) with
      | None => None
      | Some (Throw e) => Some (Throw e)
      | Some (Ok message) => Some (Ok (name ++ ": " ++ message))
      end
  end.

(** [i.toJSON ()]: the method, when the read [i.toJSON] finds it.
    Otherwise [i.toJSON] is [undefined], and the engine's [TypeError]
    spells the callee as the call site does ([callee]). *)
Definition call_toJSON (callee : string) (i : instance) (st : state)
    : completion json * state :=
  if has_toJSON i then toJSON i st
  else (Throw (TypeError (callee ++ " is not a function")), st).

(** *** Code of the caller *)

(** Up to here a cause is data.  The source also runs code of the caller:
    [cause.toJSON ('cause')], line 114, calls whatever function the cause
    holds under [toJSON], and that function can write to anything it
    reaches, the [_props] object of an instance included (line 51 makes the
    property [_props] read-only, not the object it holds).

    A [world] is the store together with the instances the caller holds,
    each at an address, with the fields of its [_props] as they are now.
    An instance inside a field is there with the fields it has; code that
    writes to it writes to every place that holds it.  A [caller_method] is
    the body of a [toJSON] function of the caller, as a transformer of the
    world, and [caller_methods] tells which plain objects hold one as their
    property [toJSON]. *)
Abbreviation ref := nat.

Record world := World {
  objects : state;
  instances : gmap ref instance
}.

Definition caller_method : Type := world -> completion json * world.

Definition caller_methods : Type := loc -> option caller_method.

(** [SmartError.prototype.toJSON], lines 105-129, with the code of the
    caller.  [this] holds the four fields as line 106 reads them, before
    anything is called.  On a plain object with a truthy [isSmartError],
    [cause.toJSON] is the object's own data, which is not callable, or else
    the caller's method, if the object has one. *)
Fixpoint toJSON_with (M : caller_methods) (this : instance) (w : world)
    {struct this} : completion json * world :=
  let (T, code, metadata, cause, stack) := this in
  let result := [("name", JValue (VDatum (v_name T)));
                 ("code", JValue (VString code))] in
  let result :=
    if negb (nullish metadata)
    then (result ++ [("metadata", JValue metadata)])%list else result in
  let finish (result : list (string * json)) : completion json :=
    Ok (JObject (result ++ [("stack", JValue (VString stack))])%list) in
  if negb (nullish cause) then
    if truthy_value (read (objects w) cause KIsSmartError) then
      match cause with
      | VInstance c =>
          if has_toJSON c then
            match toJSON_with M c w with
            | (Ok j, w') => (finish (result ++ [("cause", j)])%list, w')
            | (Throw e, w') => (Throw e, w')
            end
          else (Throw (TypeError "cause.toJSON is not a function"), w)
      | VDatum (DObject l) =>
          match assoc "toJSON" (heap_object (objects w) l), M l with
          | None, Some f =>
              match f w with
              | (Ok j, w') => (finish (result ++ [("cause", j)])%list, w')
              | (Throw e, w') => (Throw e, w')
              end
          | _, _ => (Throw (TypeError "cause.toJSON is not a function"), w)
          end
      | _ => (Throw (TypeError "cause.toJSON is not a function"), w)
      end
    else if instanceof_Error cause then
      let reduced :=
        JObject [("code", JValue (read (objects w) cause KCode));
                 ("message", JValue (read (objects w) cause KMessage));
                 ("stack", JValue (read (objects w) cause KStack))] in
      (finish (result ++ [("cause", reduced)])%list, w)
    else (finish (result ++ [("cause", JValue cause)])%list, w)
  else (finish result, w).

(** The method run with [this] the instance that the caller holds at [r];
    [None] when the caller holds none there. *)
Definition toJSON_at (M : caller_methods) (r : ref) (w : world)
    : option (completion json * world) :=
  match instances w !! r with
  | Some this => Some (toJSON_with M this w)
  | None => None
  end.

(** The write [i._props.code = code] by the caller, for the instance at
    [r]. *)
Definition set_code (r : ref) (code : string) (w : world) : world :=
  match instances w !! r with
  | Some (Instance T _ metadata cause stack) =>
      World (objects w)
            (<[r := Instance T code metadata cause stack]> (instances w))
  | None => w
  end.

(** *** [create] *)

(** The function object [SmartError] while [create] runs: its own
    properties other than [prototype], and the object [SmartError.prototype]
    denotes. *)
Record klass := Klass {
  k_static : list (string * sval);
  k_proto : prototype
}.

(** Rebind the first occurrence of a key, or add the key at the end. *)
Fixpoint update {A} (k : string) (a : A) (l : list (string * A))
    : list (string * A) :=
  match l with
  | [] => [(k, a)]
  | (k', a') :: l' =>
      if String.eqb k k' then (k, a) :: l' else (k', a') :: update k a l'
  end.

Fixpoint foldM {A B} (f : B -> A -> completion B) (l : list A) (b : B)
    : completion B :=
  match l with
  | [] => Ok b
  | a :: l' => b' ← f b a; foldM f l' b'
  end.

(** [Object.defineProperty (o, k, {configurable: false, get})]: an own
    non-configurable property cannot be redefined. *)
Definition define_property (o : prototype) (k : string) (m : member)
    : completion prototype :=
  match assoc k (p_members o) with
  | Some (MGetter _) => Throw (TypeError ("Cannot redefine property: " ++ k))
  | Some _ => Ok (Prototype (p_kind o) (update k m (p_members o)))
  | None =>
      match p_kind o with
      | PFunction =>
          if mem k ["prototype"; "arguments"; "caller"]
          then Throw (TypeError ("Cannot redefine property: " ++ k))
          else Ok (Prototype PFunction (update k m (p_members o)))
      | POriginal => Ok (Prototype POriginal (update k m (p_members o)))
      end
  end.

(** [o.k = function ...] in sloppy mode: an accessor without a setter
    keeps the property as it is. *)
Definition assign_member (o : prototype) (k : string) (m : member)
    : prototype :=
  match assoc k (p_members o) with
  | Some (MGetter _) => o
  | _ => Prototype (p_kind o) (update k m (p_members o))
  end.

(** [SmartError[err] = function ...] in sloppy mode.  [length] and [name]
    are not writable (nor are [arguments] and [caller], own properties of a
    sloppy-mode function in V8), so the assignment does nothing there;
    [prototype] is writable, and from then on [SmartError.prototype] denotes
    the creator.  (Under ["__proto__"] the assignment runs the setter of
    [Object.prototype]; the read [SmartError.__proto__] then yields the
    creator all the same.) *)
Definition assign_static (c : klass) (err : string) : klass :=
  if mem err ["length"; "name"; "arguments"; "caller"] then c
  else if String.eqb err "prototype"
       then Klass (k_static c) (Prototype PFunction [])
       else Klass (update err (SCreator err) (k_static c)) (k_proto c).

(** One round of the [forEach] of lines 148-158. *)
Definition attach (c : klass) (err : string) : completion klass :=
  let c := assign_static c err in
  proto ← define_property (k_proto c) ("is" ++ err) (MGetter (GIs err));
  Ok (Klass (k_static c) proto).

(** The function declaration of line 43 and [inherits (SmartError, Error)]
    of line 58. *)
Definition declared_class : klass :=
  Klass [("length", SNumber 3); ("name", SString "SmartError");
         ("arguments", SNull); ("caller", SNull); ("super_", SErrorCtor)]
        (Prototype POriginal [("constructor", MConstructor)]).

(** Lines 61-145: the accessors, then the three methods. *)
Definition instance_properties : list (string * member) :=
  [("name", MGetter GName); ("code", MGetter GCode);
   ("message", MGetter GMessage); ("metadata", MGetter GMetadata);
   ("cause", MGetter GCause); ("stack", MGetter GStack);
   ("isSmartError", MGetter GIsSmartError)].

Definition instance_methods : list (string * member) :=
  [("toJSON", MMethod MToJSON); ("toString", MMethod MToString);
   ("toDetailedString", MMethod MToDetailedString)].

Definition base_class : completion klass :=
  proto ← foldM (fun o km => define_property o km.1 km.2)
                instance_properties (k_proto declared_class);
  let proto := fold_left (fun o km => assign_member o km.1 km.2)
                         instance_methods proto in
  Ok (Klass (k_static declared_class) proto).

(** The object that [errors] denotes once both assertions have passed and
    [Object.keys (errors)] has not thrown. *)
Definition table_of (errors : datum) : option table :=
  match errors with
  | DObject l => Some (TObject l)
  | DArray xs => Some (TArray xs)
  | DError hidden props => Some (TError hidden props)
  | _ => None
  end.

(** [create (name, errors)], lines 32-161.  [Object.keys (null)] throws;
    the primitives that [table_of] also rejects never pass the assertion
    on [errors]. *)
Definition create (st : state) (name errors : datum)
    : completion (variant * state) :=
  _ ← assert st "name" name "string";
  _ ← assert st "errors" errors "object";
  c ← base_class;
  match table_of errors with
  | None => Throw (TypeError "Cannot convert undefined or null to object")
  | Some t =>
      c ← foldM attach (Object_keys st t) c;
      Ok (Variant (next_id st) name t (k_static c) (k_proto c),
          State (heap st) (S (next_id st)))
  end.

(** [T.k]: an own property of the constructor function. *)
Definition static_get (T : variant) (k : string) : option sval :=
  if String.eqb k "prototype"
  then Some (match p_kind (v_proto T) with
             | POriginal => SOwnPrototype
             | PFunction => SCreator "prototype"
             end)
  else assoc k (v_static T).

(** [T.k (metadata, cause)].  [None]: [T.k] denotes a built-in function
    ([Error] under [super_], or a member inherited from
    [Function.prototype] or [Object.prototype]), whose call is outside this
    development.  When [T.k] is not a function the engine throws a
    [TypeError] that spells the callee as the call site does; [callee] is
    that text, an input of the call (["MyError.name"] for
    [MyError.name (...)], ["E[k]"] for [E[k] (...)]). *)
Definition call_static (callee : string) (T : variant) (k : string)
    (metadata cause : value) (stack : string)
    : option (completion instance) :=
  match static_get T k with
  | Some (SCreator err) => Some (creator T err metadata cause stack)
  | Some SErrorCtor => None
  | Some _ => Some (Throw (TypeError (callee ++ " is not a function")))
  | None =>
      if mem k Function_prototype_members || mem k Object_prototype_members
      then None
      else Some (Throw (TypeError (callee ++ " is not a function")))
  end.

(** *** Writes by the caller *)

(** The caller gives the plain object at [l] the own property [k], or a new
    value for it: [Object.defineProperty (o, k, {value: d, writable: true,
    enumerable: true, configurable: true})], which is what [o[k] = d] does
    under every name but ["__proto__"]. *)
Definition assign_property (st : state) (l : loc) (k : string) (d : datum)
    : state :=
  State (<[l := update k d (heap_object st l)]> (heap st)) (next_id st).

(** [delete o[k]] on the plain object at [l]. *)
Definition delete_property (st : state) (l : loc) (k : string) : state :=
  State (<[l := filter (fun p => negb (String.eqb k p.1)) (heap_object st l)]>
           (heap st))
        (next_id st).

(** ** Definitions used by the statements *)

(** The function object once lines 43-145 have run, before the rounds of
    the [forEach]. *)
Definition base_klass : klass :=
  Klass (k_static declared_class)
        (Prototype POriginal
           (("constructor", MConstructor)
              :: instance_properties ++ instance_methods)).

(** The codes a constructor was declared with: the keys of [errors] when
    [create] ran. *)
Definition declared (st : state) (T : variant) : list string :=
  Object_keys st (v_errors T).

(** [k in t]: an own property, or one found on the prototype chain. *)
Definition has_property (st : state) (t : table) (k : string) : bool :=
  match t with
  | TObject l =>
      bool_decide (is_Some (assoc k (heap_object st l)))
      || mem k Object_prototype_members
  | TArray xs =>
      bool_decide (is_Some (assoc k (array_props xs)))
      || String.eqb k "length"
      || mem k Array_prototype_members || mem k Object_prototype_members
  | TError _ props =>
      bool_decide (is_Some (assoc k props))
      || mem k ["name"; "message"; "constructor"; "toString"]
      || mem k Object_prototype_members
  end.

(** The fields that do not depend on the cause: [name] and [code], then
    [metadata] when it is neither [undefined] nor [null]. *)
Definition head_fields (this : instance) : list (string * json) :=
  [("name", JValue (VDatum (v_name (i_type this))));
   ("code", JValue (VString (i_code this)))]
  ++ (if nullish (i_metadata this) then []
      else [("metadata", JValue (i_metadata this))]).

Definition stack_field (this : instance) : list (string * json) :=
  [("stack", JValue (VString (i_stack this)))].

(** What is left of a generic error. *)
Definition reduced_error (st : state) (cause : value) : json :=
  JObject [("code", JValue (read st cause KCode));
           ("message", JValue (read st cause KMessage));
           ("stack", JValue (read st cause KStack))].

(** A cause whose [isSmartError] is truthy although it has no [toJSON]
    method to call. *)
Definition impostor (st : state) (cause : value) : bool :=
  negb (nullish cause)
  && truthy_value (read st cause KIsSmartError)
  && match cause with
     | VInstance c => negb (has_toJSON c)
     | _ => true
     end.

(** No cause along the chain calls a [toJSON] that is not there. *)
Fixpoint sound_chain (st : state) (i : instance) : bool :=
  let (_, _, _, cause, _) := i in
  negb (impostor st cause)
  && match cause with
     | VInstance c =>
         if truthy_value (read st cause KIsSmartError)
         then sound_chain st c else true
     | _ => true
     end.

(** Every own property of the object is a per-code predicate. *)
Definition only_predicates (o : prototype) : Prop :=
  forall k, (forall e, k <> "is" ++ e) -> assoc k (p_members o) = None.

(** The address of a table that lives in the heap. *)
Definition table_loc (t : table) : list loc :=
  match t with
  | TObject l => [l]
  | _ => []
  end.

(** The addresses [toJSON] may read: the plain objects that occur as causes
    along the chain, and the tables of the instances that occur as
    causes. *)
Fixpoint footprint (i : instance) : list loc :=
  let (_, _, _, cause, _) := i in
  match cause with
  | VDatum (DObject l) => [l]
  | VInstance c => table_loc (v_errors (i_type c)) ++ footprint c
  | _ => []
  end.

(** ** Inputs of the examples *)


(** The table of the test suite, at address [0]. *)
Definition ERRORS : object :=
  [("Unexpected", DString "An unexpected error has occurred.");
   ("TimedOut", DString "The operation timed out.")].

Definition test_state : state := State {[ 0%nat := ERRORS ]} 0.

(** [MyError = create ('MyError', ERRORS)]. *)
Definition MyError : variant :=
  Variant 0 (DString "MyError") (TObject 0%nat)
    (k_static declared_class
       ++ [("Unexpected", SCreator "Unexpected");
           ("TimedOut", SCreator "TimedOut")])
    (Prototype POriginal
       (("constructor", MConstructor)
          :: instance_properties ++ instance_methods
          ++ [("isUnexpected", MGetter (GIs "Unexpected"));
              ("isTimedOut", MGetter (GIs "TimedOut"))])).

(** [new Error ('boom')]. *)
Definition boom : value :=
  VDatum (DError ["message"; "stack"] [("message", DString "boom")]).

(** A table that declares the code ["prototype"] after the code ["A"]. *)
Definition prototype_table : object :=
  [("A", DString "a"); ("prototype", DString "p")].

Definition prototype_state : state := State {[ 0%nat := prototype_table ]} 0.

(** A store with the table [{A: 'a'}] at address [0]. *)
Definition Foo_state : state := State {[ 0%nat := [("A", DString "a")] ]} 0.

(** The constructor that the [n]-th call [create ('Foo', {A: 'a'})]
    returns. *)
Definition Foo (n : nat) : variant :=
  Variant n (DString "Foo") (TObject 0%nat)
    (k_static declared_class ++ [("A", SCreator "A")])
    (Prototype POriginal
       (("constructor", MConstructor)
          :: instance_properties ++ instance_methods
          ++ [("isA", MGetter (GIs "A"))])).

(** A store with one table, at address [0]. *)
Definition table_state (o : object) : state := State {[ 0%nat := o ]} 0.

(** The store after [create ('MyError', ERRORS)], in which the caller has
    allocated the object [{isSmartError: true}] at address [1]. *)
Definition impostor_state : state :=
  State (<[1%nat := [("isSmartError", DBool true)]]> (heap test_state)) 1.

(** The caller holds, at address [0], an instance of [MyError] whose cause
    is the plain object [{isSmartError: true}] at address [1]. *)
Definition caller_world : world :=
  World impostor_state
        {[ 0%nat := Instance MyError "TimedOut" VUndefined
                      (VDatum (DObject 1%nat)) "at test" ]}.

(** The object at [1] has the method
    [toJSON () { e._props.code = 'Unexpected'; return {} }], where [e] is
    the instance at [0]. *)
Definition writing_methods : caller_methods :=
  fun l => if Nat.eqb l 1
           then Some (fun w => (Ok (JObject []), set_code 0 "Unexpected" w))
           else None.

(** The object at [1] has the method [toJSON () { return {seen: true} }]. *)
Definition reading_methods : caller_methods :=
  fun l => if Nat.eqb l 1
           then Some (fun w => (Ok (JObject [("seen", JValue (VBool true))]),
                                w))
           else None.

(** * Properties *)

(** ** Association lists *)

Lemma assoc_update {A} (k k' : string) (a : A) (l : list (string * A)) :
  assoc k (update k' a l) = if String.eqb k k' then Some a else assoc k l.
Proof.
  induction l as [|[k0 a0] l IH]; simpl.
  - destruct (String.eqb k k'); reflexivity.
  - destruct (String.eqb k' k0) eqn:E0; simpl.
    + apply String.eqb_eq in E0 as ->.
      destruct (String.eqb k k0); reflexivity.
    + destruct (String.eqb k k0) eqn:E1; simpl.
      * apply String.eqb_eq in E1 as ->.
        rewrite String.eqb_sym, E0. reflexivity.
      * exact IH.
Qed.

Lemma assoc_update_eq {A} (k : string) (a : A) (l : list (string * A)) :
  assoc k (update k a l) = Some a.
Proof. rewrite assoc_update, String.eqb_refl. reflexivity. Qed.

Lemma assoc_update_ne {A} (k k' : string) (a : A) (l : list (string * A)) :
  k <> k' -> assoc k (update k' a l) = assoc k l.
Proof.
  intros Hne. rewrite assoc_update.
  destruct (String.eqb k k') eqn:E; [|reflexivity].
  apply String.eqb_eq in E. contradiction.
Qed.

Lemma assoc_None {A} (k : string) (l : list (string * A)) :
  assoc k l = None <-> k ∉ map fst l.
Proof.
  induction l as [|[k0 a0] l IH]; simpl.
  - split; [intros _; apply not_elem_of_nil | reflexivity].
  - destruct (String.eqb k k0) eqn:E.
    + apply String.eqb_eq in E as ->. split; [discriminate|].
      intros H. exfalso. apply H. left.
    + apply String.eqb_neq in E. rewrite IH, not_elem_of_cons. tauto.
Qed.

Lemma mem_spec (k : string) (l : list string) : mem k l = true <-> k ∈ l.
Proof.
  unfold mem. rewrite existsb_exists. split.
  - intros (x & Hin & E). apply String.eqb_eq in E as ->.
    apply list_elem_of_In. exact Hin.
  - intros H. exists k. split; [apply list_elem_of_In; exact H|].
    apply String.eqb_refl.
Qed.

Lemma mem_false (k : string) (l : list string) : mem k l = false <-> k ∉ l.
Proof.
  rewrite <- mem_spec. destruct (mem k l); split; auto; try discriminate.
  intros H. exfalso. apply H. reflexivity.
Qed.

(** ** Argument checks of [create] *)

Lemma assert_passes (st : state) (name : string) (v : datum) (type : string) :
  typeof v = type -> assert st name v type = Ok tt.
Proof.
  intros <-. unfold assert. rewrite String.eqb_refl. reflexivity.
Qed.

(** A failed assertion throws a [TypeError]; when the value converts to a
    string, the message names the parameter, the expected type, the type
    received and the value received. *)
Lemma assert_throws (st : state) (name : string) (v : datum) (type : string) :
  typeof v <> type ->
  assert st name v type =
    Throw (TypeError
             match to_string st v with
             | Some s => assert_message name type (typeof v) s
             | None => "Cannot convert object to primitive value"
             end).
Proof.
  intros Hne. unfold assert.
  destruct (String.eqb (typeof v) type) eqn:E.
  - apply String.eqb_eq in E. contradiction.
  - simpl. destruct (to_string st v); reflexivity.
Qed.

Lemma create_name_not_string (st : state) (name errors : datum) :
  typeof name <> "string" ->
  exists msg, create st name errors = Throw (TypeError msg).
Proof.
  intros Hne. unfold create. rewrite (assert_throws _ _ _ _ Hne).
  eexists. reflexivity.
Qed.

Lemma create_errors_not_object (st : state) (name : string) (errors : datum) :
  typeof errors <> "object" ->
  exists s, to_string st errors = Some s /\
    create st (DString name) errors =
      Throw (TypeError (assert_message "errors" "object" (typeof errors) s)).
Proof.
  intros Hne. unfold create.
  rewrite (assert_passes st "name" (DString name) "string" eq_refl).
  rewrite (assert_throws _ _ _ _ Hne).
  destruct errors; simpl in *; try (eexists; split; reflexivity);
    exfalso; apply Hne; reflexivity.
Qed.



(** C4.  [create (name, null)]: [typeof null] is ["object"], so the
    assertion on [errors] passes, and the call fails later, in
    [Object.keys (null)], with a message that is not the one [assert]
    builds for the parameter [errors]. *)
Theorem create_null_errors (st : state) (name : string) :
  assert st "errors" DNull "object" = Ok tt
  /\ create st (DString name) DNull =
       Throw (TypeError "Cannot convert undefined or null to object")
  /\ forall t v, "Cannot convert undefined or null to object"
                 <> assert_message "errors" "object" t v.
Proof.
  repeat split. intros t v. discriminate.
Qed.

(** ** What [create] attaches *)

Lemma base_class_eq : base_class = Ok base_klass.
Proof. reflexivity. Qed.

Arguments base_class : simpl never.
Arguments base_klass : simpl never.

Lemma is_name_inj (e e' : string) : "is" ++ e = "is" ++ e' -> e = e'.
Proof. simpl. intros H. injection H. auto. Qed.

Lemma is_name_elem (e : string) (ks : list string) :
  "is" ++ e ∈ map (String.append "is") ks <-> e ∈ ks.
Proof.
  rewrite list_elem_of_fmap. split.
  - intros (e' & Heq & Hin). apply is_name_inj in Heq as ->. exact Hin.
  - intros Hin. exists e. auto.
Qed.

(** One round that completes has stored the creator (unless the key is not
    writable) and has added the accessor to the object that
    [SmartError.prototype] denotes after the assignment. *)
Lemma attach_ok (c c' : klass) (e : string) :
  attach c e = Ok c' ->
  k_static c' = k_static (assign_static c e)
  /\ p_kind (k_proto c') = p_kind (k_proto (assign_static c e))
  /\ p_members (k_proto c') =
       update ("is" ++ e) (MGetter (GIs e))
              (p_members (k_proto (assign_static c e))).
Proof.
  unfold attach, define_property.
  destruct (assoc ("is" ++ e) (p_members (k_proto (assign_static c e))))
    as [[g|m|]|] eqn:E; simpl; try discriminate.
  - intros [= <-]. auto.
  - intros [= <-]. auto.
  - destruct (p_kind (k_proto (assign_static c e))) eqn:K; simpl.
    + intros [= <-]. auto.
    + intros [= <-]. auto.
Qed.

Lemma assign_static_proto (c : klass) (e : string) :
  e <> "prototype" -> k_proto (assign_static c e) = k_proto c.
Proof.
  intros Hne. unfold assign_static.
  destruct (mem e _); [reflexivity|].
  destruct (String.eqb e "prototype") eqn:E; [|reflexivity].
  apply String.eqb_eq in E. contradiction.
Qed.

Lemma assign_static_get (c : klass) (e k : string) :
  assoc k (k_static (assign_static c e)) =
    if mem e ["length"; "name"; "arguments"; "caller"; "prototype"]
    then assoc k (k_static c)
    else if String.eqb k e then Some (SCreator e) else assoc k (k_static c).
Proof.
  unfold assign_static, mem. simpl. rewrite !orb_false_r.
  destruct (String.eqb e "length"), (String.eqb e "name"),
    (String.eqb e "arguments"), (String.eqb e "caller"); simpl;
    try reflexivity.
  destruct (String.eqb e "prototype"); simpl; [reflexivity|].
  apply assoc_update.
Qed.

(** The rounds of a [forEach] that never meets the key ["prototype"]. *)
Lemma attach_all_proto (ks : list string) (c c' : klass) :
  "prototype" ∉ ks ->
  foldM attach ks c = Ok c' ->
  p_kind (k_proto c') = p_kind (k_proto c)
  /\ (forall e, e ∈ ks ->
        assoc ("is" ++ e) (p_members (k_proto c')) = Some (MGetter (GIs e)))
  /\ (forall k, k ∉ map (String.append "is") ks ->
        assoc k (p_members (k_proto c')) = assoc k (p_members (k_proto c))).
Proof.
  revert c. induction ks as [|e ks IH]; intros c Hno Hfold; simpl in Hfold.
  - injection Hfold as <-. split; [reflexivity|]. split; [|reflexivity].
    intros e He. inversion He.
  - apply not_elem_of_cons in Hno as [Hne Hno].
    destruct (attach c e) as [c1|err] eqn:Hat; simpl in Hfold;
      [|discriminate].
    apply attach_ok in Hat as (_ & Hk & Hm).
    rewrite assign_static_proto in Hk, Hm by auto.
    destruct (IH c1 Hno Hfold) as (IHk & IHin & IHout).
    split; [congruence|]. split.
    + intros e' He'. apply elem_of_cons in He' as [->|He'].
      * destruct (decide (e ∈ ks)) as [Hin|Hnin]; [auto|].
        rewrite IHout by (rewrite is_name_elem; exact Hnin).
        rewrite Hm. apply assoc_update_eq.
      * auto.
    + intros k Hk'. simpl in Hk'. apply not_elem_of_cons in Hk' as [Hk1 Hk2].
      rewrite IHout by exact Hk2. rewrite Hm.
      apply assoc_update_ne. exact Hk1.
Qed.

(** The creators that the rounds store on the function. *)
Lemma attach_all_static (ks : list string) (c c' : klass) :
  foldM attach ks c = Ok c' ->
  (forall e, e ∈ ks ->
     mem e ["length"; "name"; "arguments"; "caller"; "prototype"] = false ->
     assoc e (k_static c') = Some (SCreator e))
  /\ (forall k, k ∉ ks -> assoc k (k_static c') = assoc k (k_static c)).
Proof.
  revert c. induction ks as [|e ks IH]; intros c Hfold; simpl in Hfold.
  - injection Hfold as <-. split; [|reflexivity]. intros e He. inversion He.
  - destruct (attach c e) as [c1|err] eqn:Hat; simpl in Hfold;
      [|discriminate].
    apply attach_ok in Hat as (Hs & _ & _).
    destruct (IH c1 Hfold) as (IHin & IHout).
    split.
    + intros e' He' Hw. apply elem_of_cons in He' as [->|He'].
      * destruct (decide (e ∈ ks)) as [Hin|Hnin]; [auto|].
        rewrite IHout by exact Hnin. rewrite Hs, assign_static_get, Hw.
        rewrite String.eqb_refl. reflexivity.
      * auto.
    + intros k Hk. apply not_elem_of_cons in Hk as [Hk1 Hk2].
      rewrite IHout by exact Hk2. rewrite Hs, assign_static_get.
      destruct (mem e _); [reflexivity|].
      destruct (String.eqb k e) eqn:E; [|reflexivity].
      apply String.eqb_eq in E. contradiction.
Qed.

Lemma assert_ok_inv (st : state) (name : string) (v : datum) (type : string)
    (u : unit) :
  assert st name v type = Ok u -> typeof v = type.
Proof.
  unfold assert. destruct (String.eqb (typeof v) type) eqn:E; simpl.
  - intros _. apply String.eqb_eq. exact E.
  - destruct (to_string st v); discriminate.
Qed.

Lemma create_unfold (st : state) (name errors : datum) :
  create st name errors =
    (_ ← assert st "name" name "string";
     _ ← assert st "errors" errors "object";
     match table_of errors with
     | None => Throw (TypeError "Cannot convert undefined or null to object")
     | Some t =>
         c ← foldM attach (Object_keys st t) base_klass;
         Ok (Variant (next_id st) name t (k_static c) (k_proto c),
             State (heap st) (S (next_id st)))
     end).
Proof. reflexivity. Qed.

(** A call of [create] that returns has passed both assertions, has run
    every round of the [forEach], and returns a function created by this
    very call. *)
Lemma create_ok (st st' : state) (name errors : datum) (T : variant) :
  create st name errors = Ok (T, st') ->
  typeof name = "string"
  /\ exists t c,
       table_of errors = Some t
       /\ foldM attach (Object_keys st t) base_klass = Ok c
       /\ T = Variant (next_id st) name t (k_static c) (k_proto c)
       /\ st' = State (heap st) (S (next_id st)).
Proof.
  rewrite create_unfold. unfold mbind, completion_bind.
  destruct (assert st "name" name "string") eqn:A1; [|discriminate].
  destruct (assert st "errors" errors "object") eqn:A2; [|discriminate].
  destruct (table_of errors) as [t|]; [|discriminate].
  destruct (foldM attach (Object_keys st t) base_klass) as [c|e] eqn:Hf;
    [|discriminate].
  intros [= <- <-]. split; [exact (assert_ok_inv _ _ _ _ _ A1)|].
  exists t, c. auto.
Qed.

(** The key ["SmartError"] cannot be attached while [SmartError.prototype]
    is the original object: [isSmartError] is already there, and not
    configurable. *)
Lemma create_ok_intact (st st' : state) (name errors : datum) (T : variant) :
  create st name errors = Ok (T, st') ->
  "prototype" ∉ declared st T ->
  p_kind (v_proto T) = POriginal
  /\ (forall e, e ∈ declared st T ->
        assoc ("is" ++ e) (p_members (v_proto T)) = Some (MGetter (GIs e)))
  /\ (forall k, k ∉ map (String.append "is") (declared st T) ->
        assoc k (p_members (v_proto T)) =
          assoc k (p_members (k_proto base_klass))).
Proof.
  intros Hc Hno. apply create_ok in Hc as (_ & t & c & _ & Hf & -> & _).
  unfold declared in *. simpl in *.
  exact (attach_all_proto _ _ _ Hno Hf).
Qed.

Lemma create_ok_static (st st' : state) (name errors : datum) (T : variant) :
  create st name errors = Ok (T, st') ->
  (forall e, e ∈ declared st T ->
     mem e ["length"; "name"; "arguments"; "caller"; "prototype"] = false ->
     assoc e (v_static T) = Some (SCreator e))
  /\ (forall k, k ∉ declared st T ->
        assoc k (v_static T) = assoc k (k_static base_klass)).
Proof.
  intros Hc. apply create_ok in Hc as (_ & t & c & _ & Hf & -> & _).
  unfold declared. simpl. exact (attach_all_static _ _ _ Hf).
Qed.

(** Which of the fixed accessors an [is]-name can collide with. *)
Lemma base_member_is (e : string) :
  e <> "SmartError" ->
  assoc ("is" ++ e) (p_members (k_proto base_klass)) = None.
Proof.
  intros Hne. unfold base_klass. simpl.
  destruct (String.eqb e "SmartError") eqn:E.
  - apply String.eqb_eq in E. contradiction.
  - destruct e as [|a e]; [reflexivity|]. simpl in *.
    repeat match goal with
    | |- context [Ascii.eqb ?x ?y] => destruct (Ascii.eqb x y) eqn:?; simpl
    | |- context [String.eqb ?x ?y] => destruct (String.eqb x y) eqn:?; simpl
    end; try reflexivity; try congruence.
Qed.

Lemma not_is_name (k : string) (ks : list string) :
  (forall e, k <> "is" ++ e) -> k ∉ map (String.append "is") ks.
Proof.
  intros Hk Hin. apply list_elem_of_fmap in Hin as (e & -> & _).
  exact (Hk e eq_refl).
Qed.

(** The fixed accessors and methods stay where lines 61-145 put them. *)
Lemma create_ok_member (st st' : state) (name errors : datum) (T : variant)
    (k : string) :
  create st name errors = Ok (T, st') ->
  "prototype" ∉ declared st T ->
  (forall e, k <> "is" ++ e) ->
  assoc k (p_members (v_proto T)) = assoc k (p_members (k_proto base_klass)).
Proof.
  intros Hc Hno Hk.
  destruct (create_ok_intact _ _ _ _ _ Hc Hno) as (_ & _ & Hout).
  apply Hout, not_is_name, Hk.
Qed.

Lemma create_ok_super (st st' : state) (name errors : datum) (T : variant) :
  create st name errors = Ok (T, st') ->
  "super_" ∉ declared st T ->
  call_super T = Ok tt.
Proof.
  intros Hc Hno. destruct (create_ok_static _ _ _ _ _ Hc) as (_ & Hout).
  unfold call_super. rewrite (Hout _ Hno). reflexivity.
Qed.

(** The constructor, once the call of [super_] is known to return. *)
Lemma SmartError_ok (T : variant) (code : string) (metadata cause : value)
    (stack : string) :
  call_super T = Ok tt ->
  SmartError T code metadata cause stack =
    Ok (Instance T code
          (if instanceof_Error metadata then VUndefined else metadata)
          (if instanceof_Error metadata then metadata else cause)
          stack).
Proof.
  intros Hs. unfold SmartError.
  destruct (instanceof_Error metadata); rewrite Hs; reflexivity.
Qed.

(** C1, as amended.  Let [T] be returned by [create], from a table with no
    key ["prototype"] or ["super_"], and let [K] be a declared code other
    than ["length"], ["name"], ["arguments"] and ["caller"].  Then
    [T.K (m, c)] returns an instance [i] of [T] with [i.code === K],
    [i.message === errors[K]] at every later read, [i.isK === true] and
    [i.isK' === false] for every other declared code; [i.metadata === m]
    unless [m] is an [Error], in which case [i.metadata] is [undefined] and
    [i.cause === m]. *)
Theorem creator_of_declared_code (st st' : state) (name errors : datum)
    (T : variant) (callee K : string) (m c : value) (stack : string) :
  create st name errors = Ok (T, st') ->
  "prototype" ∉ declared st T ->
  "super_" ∉ declared st T ->
  K ∈ declared st T ->
  K ∉ ["length"; "name"; "arguments"; "caller"] ->
  exists i,
    call_static callee T K m c stack = Some (Ok i)
    /\ instance_of i T = true
    /\ (forall s, inst_get s i FCode = VString K)
    /\ (forall s, inst_get s i FMessage = table_get s (v_errors T) K)
    /\ (forall s, inst_get s i (FIs K) = VBool true)
    /\ (forall s K', K' ∈ declared st T -> K' <> K ->
          inst_get s i (FIs K') = VBool false)
    /\ (forall s, inst_get s i FMetadata =
          if instanceof_Error m then VUndefined else m)
    /\ (forall s, inst_get s i FCause = if instanceof_Error m then m else c).
Proof.
  intros Hc Hproto Hsuper HK Hw.
  destruct (create_ok_intact _ _ _ _ _ Hc Hproto) as (Hkind & His & _).
  destruct (create_ok_static _ _ _ _ _ Hc) as (Hst & _).
  assert (HKp : K <> "prototype") by (intros ->; contradiction).
  assert (Hmem : mem K ["length"; "name"; "arguments"; "caller"; "prototype"]
                 = false).
  { apply mem_false. intros Hin.
    rewrite !not_elem_of_cons in Hw. rewrite !elem_of_cons in Hin.
    destruct Hin as [?|[?|[?|[?|[?|Hin]]]]]; tauto. }
  pose proof (fun k Hk => create_ok_member _ _ _ _ _ k Hc Hproto Hk) as Hfix.
  eexists. split.
  { unfold call_static, static_get.
    apply String.eqb_neq in HKp. rewrite HKp, (Hst _ HK Hmem).
    unfold creator.
    rewrite (SmartError_ok _ _ _ _ _ (create_ok_super _ _ _ _ _ Hc Hsuper)).
    reflexivity. }
  split; [apply Nat.eqb_refl|].
  unfold inst_get; simpl i_type; simpl field_name.
  repeat split; intros s.
  - rewrite Hfix by (intros e; discriminate). reflexivity.
  - rewrite Hfix by (intros e; discriminate). reflexivity.
  - rewrite (His _ HK). simpl. rewrite String.eqb_refl. reflexivity.
  - intros K' HK' Hne. rewrite (His _ HK'). simpl.
    apply String.eqb_neq in Hne. rewrite String.eqb_sym, Hne. reflexivity.
  - rewrite Hfix by (intros e; discriminate). reflexivity.
  - rewrite Hfix by (intros e; discriminate). reflexivity.
Qed.

Lemma create_MyError :
  create test_state (DString "MyError") (DObject 0%nat)
  = Ok (MyError, State (heap test_state) 1).
Proof. vm_compute. reflexivity. Qed.

Lemma creator_of_declared_code_witness :
  exists T st' i,
    create test_state (DString "MyError") (DObject 0%nat) = Ok (T, st')
    /\ call_static "MyError.TimedOut" T "TimedOut" (VString "foo")
         VUndefined "at test"
       = Some (Ok i)
    /\ inst_get st' i FMetadata = VString "foo"
    /\ inst_get st' i FMessage = VString "The operation timed out."
    /\ inst_get st' i (FIs "TimedOut") = VBool true
    /\ inst_get st' i (FIs "Unexpected") = VBool false.
Proof.
  eexists _, _.
  assert (Hc : create test_state (DString "MyError") (DObject 0%nat)
               = Ok _) by (vm_compute; reflexivity).
  destruct (creator_of_declared_code _ _ _ _ _ "MyError.TimedOut"
              "TimedOut" (VString "foo") VUndefined "at test" Hc)
    as (i & Hi & _ & _ & Hm & Hk & Ho & Hd & _).
  - apply mem_false. vm_compute. reflexivity.
  - apply mem_false. vm_compute. reflexivity.
  - apply mem_spec. vm_compute. reflexivity.
  - apply mem_false. vm_compute. reflexivity.
  - exists i. split; [exact Hc|]. split; [exact Hi|].
    split; [apply Hd|]. split; [rewrite Hm; vm_compute; reflexivity|].
    split; [apply Hk|]. apply Ho; [|discriminate].
    apply mem_spec. vm_compute. reflexivity.
Defined.

(** C1, as stated, fails when the metadata is an [Error]: the constructor
    takes it for the cause. *)
Lemma creator_metadata_error_counterexample :
  ~ (forall (m : value) (T : variant) (st' : state) (i : instance),
       create test_state (DString "MyError") (DObject 0%nat) = Ok (T, st') ->
       call_static "MyError.TimedOut" T "TimedOut" m VUndefined "at test"
         = Some (Ok i) ->
       inst_get st' i FMetadata = m).
Proof.
  intros H.
  specialize (H (VDatum (DError ["message"; "stack"]
                                [("message", DString "boom")]))
                _ _ _
                eq_refl eq_refl).
  discriminate H.
Qed.

(** ** The per-code predicates *)

(** On a constructor whose table has neither the key ["prototype"] nor the
    key ["super_"], the low-level constructor accepts any code, and every
    predicate of a declared code compares the stored code with its own. *)
Lemma is_predicates_of_constructed (st st' : state) (name errors : datum)
    (T : variant) (code : string) (metadata cause : value) (stack : string) :
  create st name errors = Ok (T, st') ->
  "prototype" ∉ declared st T ->
  "super_" ∉ declared st T ->
  exists i,
    SmartError T code metadata cause stack = Ok i
    /\ i_code i = code
    /\ forall s K, K ∈ declared st T ->
         inst_get s i (FIs K) = VBool (String.eqb code K).
Proof.
  intros Hc Hproto Hsuper.
  destruct (create_ok_intact _ _ _ _ _ Hc Hproto) as (_ & His & _).
  eexists. split.
  { apply SmartError_ok. exact (create_ok_super _ _ _ _ _ Hc Hsuper). }
  split; [reflexivity|].
  intros s K HK. unfold inst_get. simpl i_type. simpl field_name.
  rewrite (His _ HK). reflexivity.
Qed.

Lemma is_predicates_exclusive (st st' : state) (name errors : datum)
    (T : variant) (code : string) (metadata cause : value) (stack : string) :
  create st name errors = Ok (T, st') ->
  "prototype" ∉ declared st T ->
  "super_" ∉ declared st T ->
  exists i,
    SmartError T code metadata cause stack = Ok i
    /\ (forall s K K', K ∈ declared st T -> K' ∈ declared st T ->
          inst_get s i (FIs K) = VBool true ->
          inst_get s i (FIs K') = VBool true -> K = K')
    /\ (code ∉ declared st T ->
        forall s K, K ∈ declared st T -> inst_get s i (FIs K) = VBool false).
Proof.
  intros Hc Hproto Hsuper.
  destruct (is_predicates_of_constructed _ _ _ _ _ code metadata cause stack
              Hc Hproto Hsuper) as (i & Hi & _ & His).
  exists i. split; [exact Hi|]. split.
  - intros s K K' HK HK'. rewrite (His s K HK), (His s K' HK').
    intros [= E] [= E']. apply String.eqb_eq in E, E'. congruence.
  - intros Hout s K HK. rewrite (His s K HK).
    destruct (String.eqb code K) eqn:E; [|reflexivity].
    apply String.eqb_eq in E. subst. contradiction.
Qed.

(** C10.  [T = create ('E', {A: 'a', prototype: 'p'})] returns; the round
    for ["prototype"] has replaced [T.prototype] by a creator function, so
    an instance built by [new T ('A')] finds no [isA] on its chain: the
    predicate of the declared code ["A"] reads [undefined], not [true]. *)
Theorem is_predicate_lost_under_prototype_key :
  exists T st' i,
    create prototype_state (DString "E") (DObject 0%nat) = Ok (T, st')
    /\ declared prototype_state T = ["A"; "prototype"]
    /\ SmartError T "A" VUndefined VUndefined "at test" = Ok i
    /\ i_code i = "A"
    /\ inst_get st' i (FIs "A") = VUndefined
    /\ inst_get st' i (FIs "prototype") = VBool false.
Proof.
  eexists _, _, _. split; [vm_compute; reflexivity|].
  split; [vm_compute; reflexivity|].
  split; [vm_compute; reflexivity|].
  split; [reflexivity|].
  split; vm_compute; reflexivity.
Qed.

(** ** The low-level constructor *)

(** C6.  When the second argument of the constructor is an [Error], every
    instance the call constructs has that argument as its cause and no
    metadata, whatever the other arguments are: in [_props], and through
    the accessors of lines 77-86.  The call does construct an instance
    whenever [SmartError.super_] is still [Error]. *)
Theorem error_metadata_becomes_cause (T : variant) (code : string)
    (metadata cause : value) (stack : string) :
  instanceof_Error metadata = true ->
  (forall i, SmartError T code metadata cause stack = Ok i ->
     i_cause i = metadata /\ i_metadata i = VUndefined
     /\ forall s, run_getter s T GCause i = metadata
                  /\ run_getter s T GMetadata i = VUndefined)
  /\ (call_super T = Ok tt ->
      exists i, SmartError T code metadata cause stack = Ok i).
Proof.
  intros He. split.
  - intros i. unfold SmartError. rewrite He.
    destruct (call_super T) as [[]|]; simpl; [|discriminate].
    intros [= <-]. auto.
  - intros Hs. rewrite (SmartError_ok _ _ _ _ _ Hs). eauto.
Qed.

Lemma error_metadata_becomes_cause_witness :
  exists i,
    SmartError MyError "TimedOut" boom (VString "ignored") "at test" = Ok i
    /\ i_cause i = boom /\ i_metadata i = VUndefined.
Proof.
  destruct (error_metadata_becomes_cause MyError "TimedOut" boom
              (VString "ignored") "at test" eq_refl) as (Hf & Hex).
  destruct (Hex eq_refl) as (i & Hi).
  exists i. split; [exact Hi|].
  destruct (Hf i Hi) as (Hc & Hm & _). split; assumption.
Defined.

(** The same through the reads [i.cause] and [i.metadata], on a constructor
    whose table has neither the key ["prototype"] nor the key ["super_"]. *)
Lemma error_metadata_read (st st' : state) (name errors : datum)
    (T : variant) (code : string) (metadata cause : value) (stack : string) :
  create st name errors = Ok (T, st') ->
  "prototype" ∉ declared st T -> "super_" ∉ declared st T ->
  instanceof_Error metadata = true ->
  exists i, SmartError T code metadata cause stack = Ok i
    /\ forall s, inst_get s i FCause = metadata
                 /\ inst_get s i FMetadata = VUndefined.
Proof.
  intros Hc Hproto Hsuper He.
  rewrite (SmartError_ok _ _ _ _ _ (create_ok_super _ _ _ _ _ Hc Hsuper)).
  rewrite He. eexists. split; [reflexivity|].
  intros s. unfold inst_get. simpl i_type. simpl field_name.
  rewrite !(create_ok_member _ _ _ _ _ _ Hc Hproto)
    by (intros e; discriminate).
  split; reflexivity.
Qed.

Lemma table_get_absent (st : state) (t : table) (k : string) :
  has_property st t k = false -> table_get st t k = VUndefined.
Proof.
  destruct t as [l|xs|hidden props]; unfold has_property, table_get;
    rewrite !orb_false_iff.
  - intros [Hown Hobj]. apply bool_decide_eq_false in Hown.
    destruct (assoc k (heap_object st l)); [exfalso; eauto|].
    unfold Object_prototype_get. rewrite Hobj. reflexivity.
  - intros [[[Hown Hlen] Harr] Hobj]. apply bool_decide_eq_false in Hown.
    destruct (assoc k (array_props xs)); [exfalso; eauto|].
    rewrite Hlen. unfold Array_prototype_get, Object_prototype_get.
    rewrite Harr, Hobj. reflexivity.
  - intros [[Hown Herr] Hobj]. apply bool_decide_eq_false in Hown.
    destruct (assoc k props); [exfalso; eauto|].
    unfold Error_prototype_get, Object_prototype_get.
    unfold mem in Herr |- * at 1. cbn [existsb] in Herr |- *.
    destruct (String.eqb k "name"); [discriminate|].
    destruct (String.eqb k "message"); [discriminate|].
    destruct (String.eqb k "constructor"); [discriminate|].
    destruct (String.eqb k "toString"); [discriminate|].
    cbn [orb]. rewrite Hobj. reflexivity.
Qed.

(** C7, as amended.  On a constructor returned by [create] from a table
    without the key ["super_"], [new T (c, ...)] returns for every string
    [c], declared or not; the message of the instance is [undefined] at any
    read at which [c] names no property of the table, own or inherited. *)
Theorem undeclared_code_is_accepted (st st' : state) (name errors : datum)
    (T : variant) (c : string) (metadata cause : value) (stack : string) :
  create st name errors = Ok (T, st') ->
  "super_" ∉ declared st T ->
  exists i,
    SmartError T c metadata cause stack = Ok i
    /\ i_code i = c
    /\ forall s, has_property s (v_errors T) c = false ->
         run_getter s T GMessage i = VUndefined
         /\ ("prototype" ∉ declared st T ->
             inst_get s i FMessage = VUndefined).
Proof.
  intros Hc Hsuper. eexists. split.
  { apply SmartError_ok. exact (create_ok_super _ _ _ _ _ Hc Hsuper). }
  split; [reflexivity|].
  intros s Hs. split.
  - simpl. apply table_get_absent. exact Hs.
  - intros Hproto. unfold inst_get. simpl i_type. simpl field_name.
    rewrite (create_ok_member _ _ _ _ _ _ Hc Hproto)
      by (intros e; discriminate).
    simpl. apply table_get_absent. exact Hs.
Qed.

Lemma undeclared_code_is_accepted_witness :
  exists T st' i,
    create test_state (DString "MyError") (DObject 0%nat) = Ok (T, st')
    /\ SmartError T "Missing" VUndefined VUndefined "at test" = Ok i
    /\ inst_get st' i FMessage = VUndefined.
Proof.
  eexists _, _.
  assert (Hc : create test_state (DString "MyError") (DObject 0%nat)
               = Ok _) by (vm_compute; reflexivity).
  destruct (undeclared_code_is_accepted _ _ _ _ _ "Missing" VUndefined
              VUndefined "at test" Hc) as (i & Hi & _ & Hm).
  - apply mem_false. vm_compute. reflexivity.
  - exists i. split; [exact Hc|]. split; [exact Hi|].
    apply Hm; [vm_compute; reflexivity|].
    apply mem_false. vm_compute. reflexivity.
Defined.

(** C7, as stated, fails for an undeclared code that names a member of
    [Object.prototype]: the read [errors[code]] finds the built-in
    function. *)
Lemma undeclared_code_message_counterexample :
  ~ (forall (c : string) (T : variant) (st' : state),
       create test_state (DString "MyError") (DObject 0%nat) = Ok (T, st') ->
       c ∉ declared test_state T ->
       exists i,
         SmartError T c VUndefined VUndefined "at test" = Ok i
         /\ inst_get st' i FMessage = VUndefined).
Proof.
  intros H.
  specialize (H "toString" _ _ eq_refl).
  assert (Hd : "toString" ∉ ["Unexpected"; "TimedOut"]).
  { apply mem_false. reflexivity. }
  destruct (H Hd) as (i & Hi & Hm).
  vm_compute in Hi. injection Hi as <-. discriminate Hm.
Qed.

(** ** Late binding of the message *)

Lemma table_get_assign (s : state) (l : loc) (k : string) (d : datum) :
  table_get (assign_property s l k d) (TObject l) k = VDatum d.
Proof.
  unfold table_get, assign_property, heap_object. simpl.
  rewrite lookup_insert_eq. simpl. rewrite assoc_update_eq. reflexivity.
Qed.

Lemma table_get_assign_ne (s : state) (l : loc) (k k' : string) (d : datum) :
  k <> k' ->
  table_get (assign_property s l k' d) (TObject l) k
  = table_get s (TObject l) k.
Proof.
  intros Hne. unfold table_get, assign_property, heap_object. simpl.
  rewrite lookup_insert_eq. simpl. rewrite assoc_update_ne by exact Hne.
  reflexivity.
Qed.

Lemma assoc_filter_ne {A} (k : string) (l : list (string * A)) :
  assoc k (filter (fun p => negb (String.eqb k p.1)) l) = None.
Proof.
  induction l as [|[k0 a0] l IH]; [reflexivity|].
  rewrite filter_cons. simpl.
  destruct (String.eqb k k0) eqn:E; simpl; [exact IH|].
  rewrite E. exact IH.
Qed.

Lemma table_get_delete (s : state) (l : loc) (k : string) :
  table_get (delete_property s l k) (TObject l) k = Object_prototype_get k.
Proof.
  unfold table_get, delete_property, heap_object. simpl.
  rewrite lookup_insert_eq. simpl. rewrite assoc_filter_ne. reflexivity.
Qed.

(** The accessor [message] holds no copy of the message.  On a constructor
    returned by [create (name, errors)] from a table without the key
    ["prototype"], the read [i.message], in any later store [s], is the
    lookup [errors[code]] in [s]; so after the caller stores [d] under
    [errors[code]] of a plain object, an instance constructed before has
    the message [d]; storing under another key leaves its message as it
    was; and after [delete errors[code]] it has what [Object.prototype]
    holds under that name. *)
Lemma message_read_is_late_bound (st st' : state) (name errors : datum)
    (t : table) (T : variant) (i : instance) :
  create st name errors = Ok (T, st') ->
  table_of errors = Some t ->
  "prototype" ∉ declared st T ->
  i_type i = T ->
  (forall s, inst_get s i FMessage = table_get s t (i_code i))
  /\ (forall l, t = TObject l ->
        (forall s d,
           inst_get (assign_property s l (i_code i) d) i FMessage = VDatum d)
        /\ (forall s k d, k <> i_code i ->
              inst_get (assign_property s l k d) i FMessage
              = inst_get s i FMessage)
        /\ (forall s,
              inst_get (delete_property s l (i_code i)) i FMessage
              = Object_prototype_get (i_code i))).
Proof.
  intros Hc Ht Hproto Hi.
  assert (He : v_errors T = t).
  { pose proof Hc as Hc'.
    apply create_ok in Hc' as (_ & t' & c & Ht' & _ & -> & _).
    simpl in *. congruence. }
  assert (Hg : forall s, inst_get s i FMessage = table_get s t (i_code i)).
  { intros s. unfold inst_get. rewrite Hi. simpl field_name.
    rewrite (create_ok_member _ _ _ _ _ _ Hc Hproto)
      by (intros e; discriminate).
    simpl. rewrite He. reflexivity. }
  split; [exact Hg|]. intros l ->. repeat split.
  - intros s d. rewrite Hg. apply table_get_assign.
  - intros s k d Hk. rewrite !Hg. apply table_get_assign_ne. congruence.
  - intros s. rewrite Hg. apply table_get_delete.
Qed.

(** C5.  [T = create ('E', {A: 'a', prototype: 'p'})] returns; the round
    for ["prototype"] has replaced [T.prototype] by a creator function, so
    the accessor [message] of lines 72-76 is on the chain of no instance.
    For [i = new T ('A')] the read [i.message] is [undefined] while the
    table holds ['a'] under ["A"], and it is still [undefined] after the
    caller has stored ['b'] there: the read performs no lookup in the
    table. *)
Theorem message_lost_under_prototype_key :
  exists T st' i,
    create prototype_state (DString "E") (DObject 0%nat) = Ok (T, st')
    /\ declared prototype_state T = ["A"; "prototype"]
    /\ SmartError T "A" VUndefined VUndefined "at test" = Ok i
    /\ i_code i = "A"
    /\ table_get st' (v_errors T) (i_code i) = VString "a"
    /\ inst_get st' i FMessage = VUndefined
    /\ (let s := assign_property st' 0%nat "A" (DString "b") in
        table_get s (v_errors T) (i_code i) = VString "b"
        /\ inst_get s i FMessage = VUndefined).
Proof.
  eexists _, _, _. split; [vm_compute; reflexivity|].
  split; [vm_compute; reflexivity|].
  split; [vm_compute; reflexivity|].
  split; [reflexivity|].
  split; [vm_compute; reflexivity|].
  split; [vm_compute; reflexivity|].
  split; vm_compute; reflexivity.
Qed.

(** ** Identity of the constructors *)

Lemma SmartError_type (T : variant) (code : string) (metadata cause : value)
    (stack : string) (i : instance) :
  SmartError T code metadata cause stack = Ok i -> i_type i = T.
Proof.
  unfold SmartError.
  destruct (instanceof_Error metadata), (call_super T) as [[]|];
    simpl; try discriminate; intros [= <-]; reflexivity.
Qed.

(** What a creator returns is an instance of its constructor. *)
Lemma call_static_type (callee : string) (T : variant) (K : string)
    (metadata cause : value)
    (stack : string) (i : instance) :
  call_static callee T K metadata cause stack = Some (Ok i) ->
  instance_of i T = true.
Proof.
  unfold call_static, creator.
  destruct (static_get T K) as [[]|]; try discriminate.
  - intros [= H]. apply SmartError_type in H. unfold instance_of.
    rewrite H. apply Nat.eqb_refl.
  - destruct (_ || _); discriminate.
Qed.

Lemma create_id (st st' : state) (name errors : datum) (T : variant) :
  create st name errors = Ok (T, st') ->
  v_id T = next_id st /\ next_id st' = S (next_id st) /\ heap st' = heap st.
Proof.
  intros Hc. apply create_ok in Hc as (_ & t & c & _ & _ & -> & ->). auto.
Qed.

(** A constructor created later is a different function. *)
Lemma create_fresh (st st' s s' : state) (name errors name' errors' : datum)
    (T T' : variant) :
  create st name errors = Ok (T, st') ->
  (next_id st' <= next_id s)%nat ->
  create s name' errors' = Ok (T', s') ->
  v_id T <> v_id T'.
Proof.
  intros Hc Hle Hc'.
  apply create_id in Hc as (-> & Hn & _).
  apply create_id in Hc' as (-> & _ & _). lia.
Qed.

(** C9.  Two calls of [create] with the same arguments, one after the
    other, return two constructors: an instance of either, and so whatever
    a creator of either returns, is not an instance of the other.  The
    store that [create] threads holds no table of names. *)
Theorem create_twice_distinct (st st1 st2 : state) (name errors : datum)
    (T1 T2 : variant) :
  create st name errors = Ok (T1, st1) ->
  create st1 name errors = Ok (T2, st2) ->
  v_id T1 <> v_id T2
  /\ (forall i, instance_of i T1 = true -> instance_of i T2 = false)
  /\ (forall i, instance_of i T2 = true -> instance_of i T1 = false)
  /\ (forall callee K m c stack i,
        call_static callee T1 K m c stack = Some (Ok i) ->
        instance_of i T1 = true /\ instance_of i T2 = false)
  /\ (forall callee K m c stack i,
        call_static callee T2 K m c stack = Some (Ok i) ->
        instance_of i T2 = true /\ instance_of i T1 = false).
Proof.
  intros H1 H2.
  assert (Hne : v_id T1 <> v_id T2).
  { exact (create_fresh _ _ _ _ _ _ _ _ _ _ H1 (le_n _) H2). }
  assert (Ha : forall i, instance_of i T1 = true -> instance_of i T2 = false).
  { unfold instance_of. intros i Hi. apply Nat.eqb_eq in Hi.
    apply Nat.eqb_neq. congruence. }
  assert (Hb : forall i, instance_of i T2 = true -> instance_of i T1 = false).
  { unfold instance_of. intros i Hi. apply Nat.eqb_eq in Hi.
    apply Nat.eqb_neq. congruence. }
  repeat split; auto.
  - eapply call_static_type; eauto.
  - eapply Ha, call_static_type; eauto.
  - eapply call_static_type; eauto.
  - eapply Hb, call_static_type; eauto.
Qed.

Lemma create_Foo (n : nat) :
  create (State (heap Foo_state) n) (DString "Foo") (DObject 0%nat)
  = Ok (Foo n, State (heap Foo_state) (S n)).
Proof. reflexivity. Qed.

Lemma create_twice_distinct_witness :
  let i := Instance (Foo 0) "A" VUndefined VUndefined "at test" in
  call_static "Foo.A" (Foo 0) "A" VUndefined VUndefined "at test"
    = Some (Ok i)
  /\ instance_of i (Foo 0) = true /\ instance_of i (Foo 1) = false.
Proof.
  intros i.
  assert (Hi : call_static "Foo.A" (Foo 0) "A" VUndefined VUndefined
                 "at test"
               = Some (Ok i)) by reflexivity.
  split; [exact Hi|].
  exact (proj1 (proj2 (proj2 (proj2
    (create_twice_distinct _ _ _ _ _ _ _ (create_Foo 0) (create_Foo 1)))))
    _ _ _ _ _ _ Hi).
Defined.

(** ** Serialization *)

(** Induction along the chain of causes. *)
Lemma instance_cause_ind (P : instance -> Prop) :
  (forall T code metadata cause stack,
     (forall c, cause = VInstance c -> P c) ->
     P (Instance T code metadata cause stack)) ->
  forall i, P i.
Proof.
  intros H. fix IH 1. intros [T code metadata cause stack].
  apply H. destruct cause as [d|p|c']; intros c Heq; try discriminate.
  injection Heq as <-. apply IH.
Qed.

(** [toJSON] leaves the store as it found it. *)
Lemma toJSON_store (i : instance) (st : state) : (toJSON i st).2 = st.
Proof.
  revert st. induction i as [T code metadata cause stack IH]
    using instance_cause_ind.
  intros st. simpl.
  destruct (nullish cause); simpl; [reflexivity|].
  destruct (truthy_value (read st cause KIsSmartError)).
  - destruct cause as [d|p|c]; try reflexivity.
    destruct (has_toJSON c); [|reflexivity].
    specialize (IH c eq_refl st).
    destruct (toJSON c st) as [[j|e] st']; simpl in *; exact IH.
  - destruct (instanceof_Error cause); reflexivity.
Qed.

(** ** Serialization and the code of the caller *)

(** Without methods of the caller, [toJSON_with] is [toJSON]. *)
Lemma toJSON_with_no_methods (this : instance) (w : world) :
  toJSON_with (fun _ => None) this w = ((toJSON this (objects w)).1, w).
Proof.
  revert w. induction this as [T code metadata cause stack IH]
    using instance_cause_ind.
  intros w. simpl.
  destruct (nullish cause); simpl; [reflexivity|].
  destruct (truthy_value (read (objects w) cause KIsSmartError)).
  - destruct cause as [d|p|c]; try reflexivity.
    + destruct d; try reflexivity.
      destruct (assoc "toJSON" (heap_object (objects w) l)); reflexivity.
    + destruct (has_toJSON c); [|reflexivity].
      rewrite (IH c eq_refl w).
      destruct (toJSON c (objects w)) as [[j|e] st']; reflexivity.
  - destruct (instanceof_Error cause); reflexivity.
Qed.

(** The only writes during [toJSON] are those of the caller's methods. *)
Lemma toJSON_with_store (M : caller_methods) (this : instance) (w : world) :
  (forall l f w0, M l = Some f -> (f w0).2 = w0) ->
  (toJSON_with M this w).2 = w.
Proof.
  intros HM. revert w. induction this as [T code metadata cause stack IH]
    using instance_cause_ind.
  intros w. simpl.
  destruct (nullish cause); simpl; [reflexivity|].
  destruct (truthy_value (read (objects w) cause KIsSmartError)).
  - destruct cause as [d|p|c]; try reflexivity.
    + destruct d; try reflexivity.
      destruct (assoc "toJSON" (heap_object (objects w) l)); [reflexivity|].
      destruct (M l) as [f|] eqn:Hf; [|reflexivity].
      pose proof (HM l f w Hf) as Hw.
      destruct (f w) as [[j|e] w']; simpl in *; exact Hw.
    + destruct (has_toJSON c); [|reflexivity].
      specialize (IH c eq_refl w).
      destruct (toJSON_with M c w) as [[j|e] w']; simpl in *; exact IH.
  - destruct (instanceof_Error cause); reflexivity.
Qed.

(** C8, as stated, fails on an instance whose cause is an object of the
    caller with a truthy [isSmartError] and a [toJSON] that writes: here
    the method sets the code of the instance it is the cause of.  The first
    call returns the code ["TimedOut"]; after it the instance has the code
    ["Unexpected"], and the second call returns that.  Neither half of the
    claim holds: the second output is not the first, and the fields of the
    instance are not what they were. *)
Lemma toJSON_writing_cause_counterexample :
  ~ (forall (M : caller_methods) (r : ref) (w w' : world)
            (o : completion json),
       toJSON_at M r w = Some (o, w') ->
       option_map fst (toJSON_at M r w') = Some o
       \/ instances w' !! r = instances w !! r).
Proof.
  intros H.
  destruct (H writing_methods 0%nat caller_world _ _ eq_refl) as [H1|H1];
    vm_compute in H1; discriminate H1.
Qed.

(** C8, as amended.  [toJSON] has no effect of its own: when the [toJSON]
    methods of the caller's objects are functions of the world that write
    nothing, a call on an instance that the caller holds leaves the world
    as it was, the fields of every instance included, and a second call
    returns what the first returned. *)
Theorem toJSON_adds_no_effect (M : caller_methods) (r : ref) (w w' : world)
    (o : completion json) :
  (forall l f w0, M l = Some f -> (f w0).2 = w0) ->
  toJSON_at M r w = Some (o, w') ->
  w' = w
  /\ instances w' !! r = instances w !! r
  /\ toJSON_at M r w' = Some (o, w').
Proof.
  intros HM Hcall.
  assert (Hw : w' = w).
  { unfold toJSON_at in Hcall.
    destruct (instances w !! r) as [this|]; [|discriminate].
    injection Hcall as Hcall.
    pose proof (toJSON_with_store M this w HM) as Hs.
    rewrite Hcall in Hs. exact Hs. }
  subst w'. auto.
Qed.

Lemma toJSON_adds_no_effect_witness :
  caller_world = caller_world
  /\ instances caller_world !! 0%nat = instances caller_world !! 0%nat
  /\ toJSON_at reading_methods 0%nat caller_world
     = Some (Ok (JObject
                   [("name", JValue (VString "MyError"));
                    ("code", JValue (VString "TimedOut"));
                    ("cause", JObject [("seen", JValue (VBool true))]);
                    ("stack", JValue (VString "at test"))]),
             caller_world).
Proof.
  apply (toJSON_adds_no_effect reading_methods 0%nat caller_world).
  - intros l f w0. unfold reading_methods.
    destruct (Nat.eqb l 1); [|discriminate].
    intros [= <-]. reflexivity.
  - reflexivity.
Defined.

Lemma toJSON_unfold (this : instance) (st : state) :
  toJSON this st =
    let cause := i_cause this in
    if nullish cause
    then (Ok (JObject (head_fields this ++ stack_field this)), st)
    else if truthy_value (read st cause KIsSmartError)
    then match cause with
         | VInstance c =>
             if has_toJSON c
             then (j ← (toJSON c st).1;
                   Ok (JObject (head_fields this ++ [("cause", j)]
                                  ++ stack_field this)), st)
             else (Throw (TypeError "cause.toJSON is not a function"), st)
         | _ => (Throw (TypeError "cause.toJSON is not a function"), st)
         end
    else if instanceof_Error cause
    then (Ok (JObject (head_fields this ++ [("cause", reduced_error st cause)]
                         ++ stack_field this)), st)
    else (Ok (JObject (head_fields this ++ [("cause", JValue cause)]
                         ++ stack_field this)), st).
Proof.
  destruct this as [T code metadata cause stack].
  unfold head_fields, stack_field, reduced_error. simpl.
  destruct (nullish cause); simpl.
  { destruct (nullish metadata); reflexivity. }
  destruct (truthy_value (read st cause KIsSmartError)).
  - destruct cause as [d|p|c]; try reflexivity.
    destruct (has_toJSON c); [|reflexivity].
    pose proof (toJSON_store c st) as Hs.
    destruct (toJSON c st) as [[j|e] st']; simpl in *; subst st';
      [|reflexivity].
    destruct (nullish metadata); simpl; rewrite <- ?app_assoc; reflexivity.
  - destruct (instanceof_Error cause), (nullish metadata); simpl;
      reflexivity.
Qed.

(** C2, as amended.  [toJSON] returns [{name, code, metadata?, cause?,
    stack}], in this order: [metadata] is present iff it is neither
    [undefined] nor [null], and so is [cause]; a cause with a truthy
    [isSmartError] is replaced by what its own [toJSON] returns; an
    [Error] without it is reduced to the [code], [message] and [stack]
    read from it; any other cause is embedded as it is.  The call throws
    exactly when the call of the cause's [toJSON] throws, which includes
    the cause that has a truthy [isSmartError] and no [toJSON] method. *)
Theorem toJSON_shape (this : instance) (st : state) :
  let cause := i_cause this in
  (nullish cause = true ->
     toJSON this st = (Ok (JObject (head_fields this ++ stack_field this)), st))
  /\ (forall c, cause = VInstance c ->
        truthy_value (read st cause KIsSmartError) = true ->
        has_toJSON c = true ->
        toJSON this st =
          (j ← (toJSON c st).1;
           Ok (JObject (head_fields this ++ [("cause", j)]
                          ++ stack_field this)), st))
  /\ (impostor st cause = true ->
        toJSON this st =
          (Throw (TypeError "cause.toJSON is not a function"), st))
  /\ (nullish cause = false ->
      truthy_value (read st cause KIsSmartError) = false ->
      toJSON this st =
        (Ok (JObject (head_fields this
                        ++ [("cause", if instanceof_Error cause
                                      then reduced_error st cause
                                      else JValue cause)]
                        ++ stack_field this)), st)).
Proof.
  intros cause. rewrite toJSON_unfold. cbv zeta. fold cause.
  repeat split.
  - intros ->. reflexivity.
  - intros c Hc Ht Hj. rewrite Ht.
    assert (Hn : nullish cause = false) by (rewrite Hc; reflexivity).
    rewrite Hn, Hc, Hj. reflexivity.
  - unfold impostor. intros H.
    apply andb_true_iff in H as [H Hi]. apply andb_true_iff in H as [Hn Ht].
    apply negb_true_iff in Hn. rewrite Hn, Ht.
    destruct cause as [d|p|c]; try reflexivity.
    apply negb_true_iff in Hi. rewrite Hi. reflexivity.
  - intros -> ->. destruct (instanceof_Error cause); reflexivity.
Qed.

(** The round for the key ["SmartError"] throws while the prototype is the
    original object: [isSmartError] is there already, not configurable. *)
Lemma attach_all_SmartError (ks : list string) (c c' : klass) :
  "prototype" ∉ ks ->
  (exists g, assoc "isSmartError" (p_members (k_proto c)) = Some (MGetter g)) ->
  foldM attach ks c = Ok c' ->
  "SmartError" ∉ ks.
Proof.
  revert c. induction ks as [|e ks IH]; intros c Hno (g & Hg) Hfold.
  - apply not_elem_of_nil.
  - apply not_elem_of_cons in Hno as [Hne Hno]. simpl in Hfold.
    apply not_eq_sym in Hne.
    destruct (attach c e) as [c1|err] eqn:Hat; simpl in Hfold;
      [|discriminate].
    assert (He : e <> "SmartError").
    { intros ->. unfold attach in Hat.
      rewrite assign_static_proto in Hat by discriminate.
      unfold define_property in Hat.
      change ("is" ++ "SmartError") with "isSmartError" in Hat.
      rewrite Hg in Hat. discriminate. }
    apply not_elem_of_cons. split; [congruence|].
    apply attach_ok in Hat as (_ & _ & Hm).
    rewrite assign_static_proto in Hm by exact Hne.
    apply (IH c1 Hno); [|exact Hfold].
    exists g. rewrite Hm, assoc_update_ne; [exact Hg|].
    change "isSmartError" with ("is" ++ "SmartError").
    intros Heq. apply is_name_inj in Heq. congruence.
Qed.

Lemma create_ok_SmartError (st st' : state) (name errors : datum)
    (T : variant) :
  create st name errors = Ok (T, st') ->
  "prototype" ∉ declared st T ->
  "SmartError" ∉ declared st T.
Proof.
  intros Hc Hno. apply create_ok in Hc as (_ & t & c & _ & Hf & -> & _).
  unfold declared in *. simpl in *.
  apply (attach_all_SmartError _ _ _ Hno) in Hf; [exact Hf|].
  eexists. reflexivity.
Qed.

(** An instance of a constructor that [create] returned from a table
    without the key ["prototype"] is a cause of the first kind. *)
Lemma created_instance_is_smart (st st' : state) (name errors : datum)
    (T : variant) (c : instance) :
  create st name errors = Ok (T, st') ->
  "prototype" ∉ declared st T ->
  i_type c = T ->
  forall s, read s (VInstance c) KIsSmartError = VBool true
            /\ has_toJSON c = true
            /\ instanceof_Error (VInstance c) = true.
Proof.
  intros Hc Hproto Hi s.
  destruct (create_ok_intact _ _ _ _ _ Hc Hproto) as (Hkind & _ & _).
  destruct (create_ok_intact _ _ _ _ _ Hc Hproto) as (_ & _ & Hout).
  unfold read, inst_get, has_toJSON, instanceof_Error. simpl field_name.
  rewrite Hi, Hkind.
  rewrite (create_ok_member _ _ _ _ _ "toJSON" Hc Hproto)
    by (intros e; discriminate).
  rewrite (Hout "isSmartError").
  - simpl. unfold instance_of. rewrite Hi, Nat.eqb_refl. auto.
  - change "isSmartError" with ("is" ++ "SmartError").
    rewrite is_name_elem. exact (create_ok_SmartError _ _ _ _ _ Hc Hproto).
Qed.

(** What [toJSON] keeps of a generic error: its own [code], [message] and
    [stack], where a missing [message] reads as the empty string of
    [Error.prototype], and a missing [code] or [stack] as [undefined]. *)
Lemma reduced_error_fields (st : state) (hidden : list string)
    (props : list (string * datum)) :
  reduced_error st (VDatum (DError hidden props)) =
    JObject [("code",
              JValue (VDatum (default DUndefined (assoc "code" props))));
             ("message",
              JValue (VDatum (default (DString EmptyString)
                                      (assoc "message" props))));
             ("stack",
              JValue (VDatum (default DUndefined (assoc "stack" props))))].
Proof.
  unfold reduced_error, read, table_get. simpl field_name.
  destruct (assoc "code" props), (assoc "message" props),
    (assoc "stack" props); reflexivity.
Qed.

(** X11.  [toJSON] returns a structure exactly when no cause along the
    chain has a truthy [isSmartError] without a [toJSON] method to call;
    otherwise it throws. *)
Lemma toJSON_returns (i : instance) (st : state) :
  sound_chain st i = true <-> exists j, toJSON i st = (Ok j, st).
Proof.
  induction i as [T code metadata cause stack IH] using instance_cause_ind.
  rewrite toJSON_unfold. unfold sound_chain; fold sound_chain.
  unfold impostor. simpl i_cause.
  destruct (nullish cause) eqn:Hn; simpl.
  { destruct cause as [[]|p|c]; try discriminate; split; eauto. }
  destruct (truthy_value (read st cause KIsSmartError)) eqn:Ht; simpl.
  - destruct cause as [d|p|c]; simpl.
    + split; [discriminate|]. intros (j & Hj). discriminate.
    + split; [discriminate|]. intros (j & Hj). discriminate.
    + destruct (has_toJSON c); simpl.
      * rewrite (IH c eq_refl). split.
        -- intros (j & Hj). rewrite Hj. simpl. eauto.
        -- intros (j & Hj).
           pose proof (toJSON_store c st) as Hs.
           destruct (toJSON c st) as [[jc|e] s']; simpl in *; subst;
             [eauto|discriminate].
      * split; [discriminate|]. intros (j & Hj). discriminate.
  - destruct (instanceof_Error cause); split; eauto;
      intros _; destruct cause; reflexivity.
Qed.

(** X12.  The keys of a returned structure, in order: [name] and [code]
    first, [metadata] and [cause] when they are neither [undefined] nor
    [null], [stack] last. *)
Lemma toJSON_keys (i : instance) (st : state) (fields : list (string * json)) :
  toJSON i st = (Ok (JObject fields), st) ->
  map fst fields =
    (["name"; "code"]
     ++ (if nullish (i_metadata i) then [] else ["metadata"])
     ++ (if nullish (i_cause i) then [] else ["cause"])
     ++ ["stack"])%list.
Proof.
  rewrite toJSON_unfold. unfold head_fields, stack_field. cbv zeta.
  destruct (nullish (i_cause i)).
  { intros [= <-]. destruct (nullish (i_metadata i)); reflexivity. }
  destruct (truthy_value _).
  - destruct (i_cause i) as [d|p|c]; try discriminate.
    destruct (has_toJSON c); [|discriminate].
    destruct (toJSON c st).1; simpl; [|discriminate].
    intros [= <-]. destruct (nullish (i_metadata i)); reflexivity.
  - destruct (instanceof_Error _); intros [= <-];
      destruct (nullish (i_metadata i)); reflexivity.
Qed.

Lemma toJSON_shape_witness :
  let st := State (heap test_state) 1 in
  let B := Instance MyError "TimedOut" (VString "meta") VUndefined "at B" in
  let A := Instance MyError "Unexpected" VUndefined (VInstance B) "at A" in
  toJSON B st =
    (Ok (JObject [("name", JValue (VString "MyError"));
                  ("code", JValue (VString "TimedOut"));
                  ("metadata", JValue (VString "meta"));
                  ("stack", JValue (VString "at B"))]), st)
  /\ toJSON A st =
       (j ← (toJSON B st).1;
        Ok (JObject [("name", JValue (VString "MyError"));
                     ("code", JValue (VString "Unexpected"));
                     ("cause", j);
                     ("stack", JValue (VString "at A"))]), st).
Proof.
  intros st B A. split.
  - exact (proj1 (toJSON_shape B st) eq_refl).
  - exact (proj1 (proj2 (toJSON_shape A st)) B eq_refl eq_refl eq_refl).
Defined.

(** C2, as stated, fails on an instance whose cause is a plain object with
    a truthy [isSmartError]: [cause.toJSON] is [undefined], and the call
    throws. *)
Lemma toJSON_impostor_counterexample :
  ~ (forall (cause : value) (i : instance),
       call_static "MyError.TimedOut" MyError "TimedOut" VUndefined cause
         "at test"
       = Some (Ok i) ->
       exists j, (toJSON i impostor_state).1 = Ok j).
Proof.
  intros H.
  destruct (H (VDatum (DObject 1%nat)) _ eq_refl) as (j & Hj).
  vm_compute in Hj. discriminate Hj.
Qed.

(** * Further properties *)

(** ** The keys that [Object.keys] lists *)

Lemma first_keys_elem {A} (l : list (string * A)) (k : string) :
  k ∈ first_keys l <-> k ∈ map fst l.
Proof.
  induction l as [|[k0 a] l IH]; simpl; [reflexivity|].
  rewrite !elem_of_cons, list_elem_of_filter, IH.
  destruct (String.eqb k0 k) eqn:E.
  - apply String.eqb_eq in E. subst. simpl. tauto.
  - apply String.eqb_neq in E. simpl. split; [tauto|].
    intros [->|H]; [contradiction|]. right. split; [exact I|exact H].
Qed.

Lemma first_keys_NoDup {A} (l : list (string * A)) : NoDup (first_keys l).
Proof.
  induction l as [|[k0 a] l IH]; simpl; [constructor|].
  constructor.
  - rewrite list_elem_of_filter. intros [H _].
    rewrite String.eqb_refl in H. exact H.
  - apply NoDup_filter. exact IH.
Qed.

Lemma insert_index_perm (k : string * N) (l : list (string * N)) :
  insert_index k l ≡ₚ k :: l.
Proof.
  induction l as [|k' l IH]; simpl; [reflexivity|].
  destruct (k.2 <=? k'.2)%N; [reflexivity|].
  rewrite IH. apply perm_swap.
Qed.

(** [own_key_order] only rearranges. *)
Lemma own_key_order_perm (ks : list string) : own_key_order ks ≡ₚ ks.
Proof.
  unfold own_key_order. induction ks as [|k ks IH]; [reflexivity|].
  cbn [omap list_omap].
  destruct (array_index k) as [n|] eqn:E.
  - rewrite filter_cons_False
      by (rewrite E, bool_decide_eq_true_2 by eauto; exact id).
    simpl. rewrite insert_index_perm. simpl. rewrite IH. reflexivity.
  - rewrite filter_cons_True
      by (rewrite E, bool_decide_eq_false_2 by (intros [? ?]; discriminate);
          exact I).
    simpl. rewrite <- Permutation_middle, IH. reflexivity.
Qed.

Lemma index_name_inj (i j : nat) : index_name i = index_name j -> i = j.
Proof.
  unfold index_name, number_to_string. intros H.
  assert (Hp : forall z, NilZero.int_of_string
                           (NilZero.string_of_int (Z.to_int z))
                         = Some (Z.to_int z)).
  { intros z. apply NilZero.isi; destruct z; simpl; try discriminate;
      intros [= E]; exact (DecimalPos.Unsigned.to_uint_nonnil _ E). }
  pose proof (Hp (Z.of_nat i)) as Hi. rewrite H, Hp in Hi.
  injection Hi as Hi. apply DecimalZ.to_int_inj in Hi. lia.
Qed.

(** An index is not a word. *)
Lemma index_name_parses (i : nat) :
  exists d, NilZero.int_of_string (index_name i) = Some d.
Proof.
  unfold index_name, number_to_string. eexists.
  apply NilZero.isi; destruct (Z.of_nat i); simpl; try discriminate;
    intros [= E]; exact (DecimalPos.Unsigned.to_uint_nonnil _ E).
Qed.

Lemma array_keys (xs : list datum) :
  map fst (array_props xs) = map index_name (seq 0 (length xs)).
Proof.
  unfold array_props.
  assert (H : forall j, map fst (imap (fun i x => (index_name (j + i), x)) xs)
                        = map index_name (seq j (length xs))).
  { induction xs as [|x xs IH]; intros j; simpl; [reflexivity|].
    rewrite Nat.add_0_r. f_equal.
    rewrite <- (IH (S j)). f_equal. apply imap_ext.
    intros i y _. simpl. f_equal. f_equal. lia. }
  exact (H 0%nat).
Qed.

Lemma Object_keys_NoDup (st : state) (t : table) : NoDup (Object_keys st t).
Proof.
  destruct t as [l|xs|hidden props]; simpl.
  - rewrite own_key_order_perm. apply first_keys_NoDup.
  - rewrite array_keys. apply NoDup_fmap_2; [|apply NoDup_seq].
    intros i j. apply index_name_inj.
  - apply NoDup_filter. rewrite own_key_order_perm. apply first_keys_NoDup.
Qed.

(** ** When [create] returns, and how it fails *)

(** A round for a code whose predicate name is free, on the original
    prototype object. *)
Lemma attach_fresh (c : klass) (e : string) :
  e <> "prototype" ->
  p_kind (k_proto c) = POriginal ->
  assoc ("is" ++ e) (p_members (k_proto c)) = None ->
  attach c e =
    Ok (Klass (k_static (assign_static c e))
              (Prototype POriginal
                 (update ("is" ++ e) (MGetter (GIs e))
                         (p_members (k_proto c))))).
Proof.
  intros Hne Hk Hm. unfold attach, define_property.
  rewrite (assign_static_proto _ _ Hne), Hm, Hk. reflexivity.
Qed.

Lemma attach_all_returns (ks : list string) (c : klass) :
  NoDup ks ->
  "prototype" ∉ ks ->
  p_kind (k_proto c) = POriginal ->
  (forall e, e ∈ ks -> assoc ("is" ++ e) (p_members (k_proto c)) = None) ->
  exists c', foldM attach ks c = Ok c'.
Proof.
  revert c. induction ks as [|e ks IH]; intros c Hnd Hno Hk Hfree; simpl.
  - eauto.
  - apply NoDup_cons in Hnd as [He Hnd].
    apply not_elem_of_cons in Hno as [Hne Hno].
    assert (Hf : assoc ("is" ++ e) (p_members (k_proto c)) = None).
    { apply Hfree. left. }
    rewrite (attach_fresh c e (not_eq_sym Hne) Hk Hf). simpl.
    apply IH; auto. simpl. intros e' He'.
    rewrite assoc_update_ne; [apply Hfree; right; exact He'|].
    intros Heq. apply is_name_inj in Heq. subst. contradiction.
Qed.

(** X1.  [create] returns for every string [name] and every object
    [errors] (plain object, array or [Error]) whose keys include neither
    ["SmartError"] nor ["prototype"]; the constructor it returns holds that
    name and that object, and the store gains nothing but the new
    function. *)
Theorem create_returns (st : state) (name errors : datum) (t : table) :
  typeof name = "string" ->
  table_of errors = Some t ->
  "SmartError" ∉ Object_keys st t ->
  "prototype" ∉ Object_keys st t ->
  exists T,
    create st name errors = Ok (T, State (heap st) (S (next_id st)))
    /\ v_name T = name /\ v_errors T = t /\ v_id T = next_id st.
Proof.
  intros Hn Ht Hs Hp.
  assert (He : typeof errors = "object") by (destruct errors; done).
  destruct (attach_all_returns (Object_keys st t) base_klass) as (c & Hc).
  - apply Object_keys_NoDup.
  - exact Hp.
  - reflexivity.
  - intros e He'. apply base_member_is. intros ->. contradiction.
  - rewrite create_unfold, (assert_passes _ _ _ _ Hn),
      (assert_passes _ _ _ _ He), Ht. simpl. rewrite Hc. simpl.
    eexists. split; [reflexivity|]. auto.
Qed.

Lemma create_returns_witness :
  exists T,
    create test_state (DString "MyError") (DObject 0%nat)
    = Ok (T, State (heap test_state) 1)
    /\ v_name T = DString "MyError" /\ v_errors T = TObject 0%nat
    /\ v_id T = 0%nat.
Proof.
  apply (create_returns test_state (DString "MyError") (DObject 0%nat)
           (TObject 0%nat) eq_refl eq_refl).
  - apply mem_false. vm_compute. reflexivity.
  - apply mem_false. vm_compute. reflexivity.
Defined.

Lemma attach_all_throws (ks : list string) (c : klass) (e : js_error) :
  foldM attach ks c = Throw e -> exists msg, e = TypeError msg.
Proof.
  revert c. induction ks as [|k ks IH]; intros c; simpl; [discriminate|].
  destruct (attach c k) as [c1|e1] eqn:Hat; simpl; [apply IH|].
  intros [= <-]. unfold attach, define_property in Hat.
  destruct (assoc _ _) as [[g|m|]|]; simpl in Hat;
    try discriminate; try (injection Hat as <-; eauto).
  destruct (p_kind _); simpl in Hat; discriminate.
Qed.

(** X2.  On arguments that are data (primitives, plain objects, arrays and
    generic errors, with data properties only) [create] throws nothing but
    a [TypeError].  An argument that brings code of its own, such as a
    [toString] method that the template literal of line 20 would call, is
    not a [datum], and what it throws is not covered. *)
Theorem create_throws_TypeError (st : state) (name errors : datum)
    (e : js_error) :
  create st name errors = Throw e -> exists msg, e = TypeError msg.
Proof.
  rewrite create_unfold. unfold assert.
  destruct (negb (String.eqb (typeof name) "string")); simpl.
  { destruct (to_string st name); intros [= <-]; eauto. }
  destruct (negb (String.eqb (typeof errors) "object")); simpl.
  { destruct (to_string st errors); intros [= <-]; eauto. }
  destruct (table_of errors) as [t|]; [|intros [= <-]; eauto].
  destruct (foldM attach (Object_keys st t) base_klass) as [c|e'] eqn:Hf;
    simpl; [discriminate|].
  intros [= <-]. exact (attach_all_throws _ _ _ Hf).
Qed.

Lemma create_throws_TypeError_witness :
  exists msg, TypeError "Cannot convert undefined or null to object"
              = TypeError msg.
Proof.
  exact (create_throws_TypeError test_state (DString "X") DNull _ eq_refl).
Defined.

Lemma attach_all_SmartError_throws (ks : list string) (c : klass) (g : getter) :
  NoDup ks ->
  "prototype" ∉ ks ->
  "SmartError" ∈ ks ->
  p_kind (k_proto c) = POriginal ->
  assoc "isSmartError" (p_members (k_proto c)) = Some (MGetter g) ->
  (forall e, e ∈ ks -> e <> "SmartError" ->
     assoc ("is" ++ e) (p_members (k_proto c)) = None) ->
  foldM attach ks c
  = Throw (TypeError "Cannot redefine property: isSmartError").
Proof.
  revert c. induction ks as [|e ks IH]; intros c Hnd Hno Hin Hk Hg Hfree.
  - inversion Hin.
  - apply NoDup_cons in Hnd as [He Hnd].
    apply not_elem_of_cons in Hno as [Hne Hno]. simpl.
    destruct (decide (e = "SmartError")) as [->|Hs].
    + unfold attach, define_property.
      rewrite assign_static_proto by discriminate.
      change ("is" ++ "SmartError") with "isSmartError". rewrite Hg.
      reflexivity.
    + assert (Hf : assoc ("is" ++ e) (p_members (k_proto c)) = None).
      { apply Hfree; [left|exact Hs]. }
      rewrite (attach_fresh c e (not_eq_sym Hne) Hk Hf).
      simpl. apply elem_of_cons in Hin as [Hin|Hin]; [congruence|].
      assert (Hi : "isSmartError" <> "is" ++ e).
      { change "isSmartError" with ("is" ++ "SmartError").
        intros Heq. apply is_name_inj in Heq. congruence. }
      apply IH; auto; simpl.
      * rewrite assoc_update_ne by exact Hi. exact Hg.
      * intros e' He' Hs'.
        rewrite assoc_update_ne; [apply Hfree; [right|]; auto|].
        intros Heq. apply is_name_inj in Heq. subst. contradiction.
Qed.

(** X3.  A table that declares the code ["SmartError"] (and not the code
    ["prototype"]) cannot be used: the predicate [isSmartError] is already an
    accessor of the prototype, not configurable, and [create] throws. *)
Theorem create_SmartError_code (st : state) (name errors : datum) (t : table) :
  typeof name = "string" ->
  table_of errors = Some t ->
  "SmartError" ∈ Object_keys st t ->
  "prototype" ∉ Object_keys st t ->
  create st name errors =
    Throw (TypeError "Cannot redefine property: isSmartError").
Proof.
  intros Hn Ht Hs Hp.
  assert (He : typeof errors = "object") by (destruct errors; done).
  rewrite create_unfold, (assert_passes _ _ _ _ Hn),
    (assert_passes _ _ _ _ He), Ht. simpl.
  rewrite (attach_all_SmartError_throws _ base_klass GIsSmartError); auto.
  - apply Object_keys_NoDup.
  - intros e _ Hne. apply base_member_is. exact Hne.
Qed.

Lemma create_SmartError_code_witness :
  create (table_state [("SmartError", DString "x")])
         (DString "E") (DObject 0%nat)
  = Throw (TypeError "Cannot redefine property: isSmartError").
Proof.
  apply (create_SmartError_code _ (DString "E") (DObject 0%nat)
           (TObject 0%nat) eq_refl eq_refl).
  - apply mem_spec. vm_compute. reflexivity.
  - apply mem_false. vm_compute. reflexivity.
Defined.

(** X4.  The name is checked first: when it is not a string, [create]
    throws the error of that check, which names the parameter [name]
    and is built from the name alone, whatever [errors] is.  The numbers
    inside the name are safe integers, which print in plain decimal. *)
Theorem create_checks_name_first (st : state) (name errors : datum) :
  typeof name <> "string" ->
  safe_integers name = true ->
  create st name errors =
    Throw (TypeError
             match to_string st name with
             | Some s => assert_message "name" "string" (typeof name) s
             | None => "Cannot convert object to primitive value"
             end).
Proof.
  intros Hn _. rewrite create_unfold, (assert_throws _ _ _ _ Hn).
  reflexivity.
Qed.

Lemma create_checks_name_first_witness :
  create test_state (DNumber 42) DNull
  = Throw (TypeError (assert_message "name" "string" "number" "42")).
Proof.
  apply (create_checks_name_first test_state (DNumber 42) DNull).
  - discriminate.
  - reflexivity.
Defined.

(** ** Codes and the own properties of the constructor *)

Lemma attach_all_static_reserved (ks : list string) (c c' : klass)
    (K : string) :
  mem K ["length"; "name"; "arguments"; "caller"] = true ->
  foldM attach ks c = Ok c' ->
  assoc K (k_static c') = assoc K (k_static c).
Proof.
  intros HK. revert c. induction ks as [|e ks IH]; intros c Hfold;
    simpl in Hfold.
  - injection Hfold as <-. reflexivity.
  - destruct (attach c e) as [c1|err] eqn:Hat; simpl in Hfold;
      [|discriminate].
    apply attach_ok in Hat as (Hs & _ & _).
    rewrite (IH c1 Hfold), Hs, assign_static_get.
    destruct (mem e _) eqn:He; [reflexivity|].
    destruct (String.eqb K e) eqn:E; [|reflexivity].
    apply String.eqb_eq in E. subst e. exfalso.
    apply mem_false in He. apply mem_spec in HK. apply He.
    rewrite !elem_of_cons in HK. rewrite !elem_of_cons.
    destruct HK as [?|[?|[?|[?|HK]]]]; auto 6.
Qed.

(** X5.  The codes ["length"], ["name"], ["arguments"] and ["caller"] get no
    creator: the function already has these properties, they are not
    writable, and the assignment of line 149 is ignored.  [T.K] is not a
    function, whether the table declares [K] or not, and calling it throws
    the [TypeError] of such a call, which spells the callee as the call
    site does. *)
Theorem reserved_code_has_no_creator (st st' : state) (name errors : datum)
    (T : variant) (callee K : string) (m c : value) (stack : string) :
  create st name errors = Ok (T, st') ->
  K ∈ ["length"; "name"; "arguments"; "caller"] ->
  call_static callee T K m c stack
  = Some (Throw (TypeError (callee ++ " is not a function"))).
Proof.
  intros Hc HK. apply mem_spec in HK.
  apply create_ok in Hc as (_ & t & k & _ & Hf & -> & _).
  pose proof (attach_all_static_reserved _ _ _ K HK Hf) as Hs.
  unfold call_static, static_get. simpl v_static.
  unfold mem in HK. simpl in HK. rewrite !orb_false_r in HK.
  destruct (String.eqb K "length") eqn:E1.
  { apply String.eqb_eq in E1. subst K. simpl. rewrite Hs. reflexivity. }
  destruct (String.eqb K "name") eqn:E2.
  { apply String.eqb_eq in E2. subst K. simpl. rewrite Hs. reflexivity. }
  destruct (String.eqb K "arguments") eqn:E3.
  { apply String.eqb_eq in E3. subst K. simpl. rewrite Hs. reflexivity. }
  destruct (String.eqb K "caller") eqn:E4; [|discriminate].
  apply String.eqb_eq in E4. subst K. simpl. rewrite Hs. reflexivity.
Qed.

Lemma reserved_code_has_no_creator_witness :
  exists T st',
    create (table_state [("name", DString "n")])
           (DString "E") (DObject 0%nat) = Ok (T, st')
    /\ declared (table_state [("name", DString "n")]) T = ["name"]
    /\ call_static "E.name" T "name" VUndefined VUndefined "at test"
       = Some (Throw (TypeError "E.name is not a function")).
Proof.
  eexists _, _.
  assert (Hc : create (table_state [("name", DString "n")])
                      (DString "E") (DObject 0%nat) = Ok _)
    by (vm_compute; reflexivity).
  split; [exact Hc|]. split; [vm_compute; reflexivity|].
  apply (reserved_code_has_no_creator _ _ _ _ _ "E.name" "name" VUndefined
           VUndefined "at test" Hc).
  apply mem_spec. reflexivity.
Defined.



(** X7.  A table that declares the code ["super_"] yields a constructor
    that constructs nothing: the creator of that code takes the place of
    [Error] under [SmartError.super_], the constructor calls it, it calls
    the constructor, and the call stack overflows.  So do the low-level
    constructor and every creator. *)
Theorem super_code_breaks_construction (st st' : state) (name errors : datum)
    (T : variant) :
  create st name errors = Ok (T, st') ->
  "super_" ∈ declared st T ->
  (forall code m c stack,
     SmartError T code m c stack
     = Throw (RangeError "Maximum call stack size exceeded"))
  /\ (forall callee K err m c stack,
        static_get T K = Some (SCreator err) ->
        call_static callee T K m c stack
        = Some (Throw (RangeError "Maximum call stack size exceeded"))).
Proof.
  intros Hc Hs.
  destruct (create_ok_static _ _ _ _ _ Hc) as (Hin & _).
  assert (Hsup : call_super T
                 = Throw (RangeError "Maximum call stack size exceeded")).
  { unfold call_super. rewrite (Hin _ Hs eq_refl). reflexivity. }
  assert (Hnew : forall code m c stack,
             SmartError T code m c stack
             = Throw (RangeError "Maximum call stack size exceeded")).
  { intros code m c stack. unfold SmartError.
    destruct (instanceof_Error m); rewrite Hsup; reflexivity. }
  split; [exact Hnew|].
  intros callee K err m c stack HK. unfold call_static, creator.
  rewrite HK, Hnew. reflexivity.
Qed.

Lemma super_code_breaks_construction_witness :
  exists T st',
    create (table_state [("A", DString "a"); ("super_", DString "s")])
           (DString "E") (DObject 0%nat) = Ok (T, st')
    /\ call_static "E.A" T "A" VUndefined VUndefined "at test"
       = Some (Throw (RangeError "Maximum call stack size exceeded")).
Proof.
  eexists _, _.
  assert (Hc : create (table_state [("A", DString "a");
                                    ("super_", DString "s")])
                      (DString "E") (DObject 0%nat) = Ok _)
    by (vm_compute; reflexivity).
  split; [exact Hc|].
  refine (proj2 (super_code_breaks_construction _ _ _ _ _ Hc _)
            "E.A" "A" "A" VUndefined VUndefined "at test" eq_refl).
  apply mem_spec. vm_compute. reflexivity.
Defined.

(** X8.  An [Error] in the place of the metadata is the cause: the call
    constructs what it would construct with [undefined] metadata and that
    error as the cause, and the third argument is dropped. *)
Theorem error_shorthand (T : variant) (code : string) (e c : value)
    (stack : string) :
  instanceof_Error e = true ->
  SmartError T code e c stack = SmartError T code VUndefined e stack
  /\ creator T code e c stack = creator T code VUndefined e stack.
Proof.
  intros He. unfold creator, SmartError. rewrite He. simpl. auto.
Qed.

Lemma error_shorthand_witness :
  creator MyError "TimedOut" boom (VString "dropped") "at test"
  = creator MyError "TimedOut" VUndefined boom "at test".
Proof.
  exact (proj2 (error_shorthand MyError "TimedOut" boom (VString "dropped")
                  "at test" eq_refl)).
Defined.

Lemma assign_static_proto_cases (c : klass) (e : string) :
  k_proto (assign_static c e) =
    if String.eqb e "prototype" then Prototype PFunction [] else k_proto c.
Proof.
  unfold assign_static, mem. simpl.
  destruct (String.eqb e "prototype") eqn:E.
  - apply String.eqb_eq in E. subst e. reflexivity.
  - destruct (_ || _); reflexivity.
Qed.

Lemma attach_function (c c' : klass) (e : string) :
  attach c e = Ok c' ->
  e = "prototype"
  \/ (p_kind (k_proto c) = PFunction /\ only_predicates (k_proto c)) ->
  p_kind (k_proto c') = PFunction /\ only_predicates (k_proto c').
Proof.
  intros Hat Hc. apply attach_ok in Hat as (_ & Hk & Hm).
  rewrite assign_static_proto_cases in Hk, Hm.
  assert (H : p_kind (if String.eqb e "prototype"
                      then Prototype PFunction [] else k_proto c) = PFunction
              /\ only_predicates (if String.eqb e "prototype"
                                  then Prototype PFunction []
                                  else k_proto c)).
  { destruct (String.eqb e "prototype") eqn:E.
    - split; [reflexivity|]. intros k _. reflexivity.
    - apply String.eqb_neq in E. destruct Hc as [->|Hc]; [contradiction|].
      exact Hc. }
  destruct H as (Hk' & Ho). split; [congruence|].
  intros k Hn. rewrite Hm, assoc_update_ne by apply Hn. apply Ho, Hn.
Qed.

Lemma attach_all_function (ks : list string) (c c' : klass) :
  foldM attach ks c = Ok c' ->
  "prototype" ∈ ks
  \/ (p_kind (k_proto c) = PFunction /\ only_predicates (k_proto c)) ->
  p_kind (k_proto c') = PFunction /\ only_predicates (k_proto c').
Proof.
  revert c. induction ks as [|e ks IH]; intros c Hfold Hc; simpl in Hfold.
  - injection Hfold as <-. destruct Hc as [Hc|Hc]; [inversion Hc|exact Hc].
  - destruct (attach c e) as [c1|err] eqn:Hat; simpl in Hfold;
      [|discriminate].
    apply (IH c1 Hfold).
    destruct (decide (e = "prototype")) as [->|Hne].
    + right. apply (attach_function _ _ _ Hat). left. reflexivity.
    + destruct Hc as [Hc|Hc].
      * apply elem_of_cons in Hc as [Hc|Hc]; [congruence|]. left. exact Hc.
      * right. apply (attach_function _ _ _ Hat). right. exact Hc.
Qed.

(** X9.  A table that declares the code ["prototype"] yields a constructor
    whose instances have lost what lines 61-145 gave the prototype: the
    creator of that code has become [SmartError.prototype].  An instance is
    still an instance of its constructor, but it is no [Error], its [code],
    [message], [metadata], [cause] and [stack] read [undefined], its [name]
    is the empty name of the creator function, and it has no [toJSON]. *)
Theorem prototype_code_strips_instances (st st' : state)
    (name errors : datum) (T : variant) (i : instance) :
  create st name errors = Ok (T, st') ->
  "prototype" ∈ declared st T ->
  i_type i = T ->
  instance_of i T = true
  /\ instanceof_Error (VInstance i) = false
  /\ (forall callee s,
        call_toJSON callee i s
        = (Throw (TypeError (callee ++ " is not a function")), s))
  /\ (forall s, inst_get s i FName = VString EmptyString)
  /\ (forall s f, f ∈ [FCode; FMessage; FMetadata; FCause; FStack] ->
        inst_get s i f = VUndefined).
Proof.
  intros Hc Hp Hi.
  apply create_ok in Hc as (_ & t & c & _ & Hf & HT & _).
  assert (H : p_kind (v_proto T) = PFunction /\ only_predicates (v_proto T)).
  { subst T. unfold declared in Hp. simpl in *.
    apply (attach_all_function _ _ _ Hf). left. exact Hp. }
  destruct H as (Hk & Ho).
  split; [unfold instance_of; rewrite Hi; apply Nat.eqb_refl|].
  split; [simpl; rewrite Hi, Hk; reflexivity|].
  split.
  { intros callee s. unfold call_toJSON, has_toJSON. rewrite Hi.
    rewrite (Ho "toJSON") by (intros e; discriminate). reflexivity. }
  split.
  { intros s. unfold inst_get. rewrite Hi, Hk. simpl field_name.
    rewrite (Ho "name") by (intros e; discriminate). reflexivity. }
  intros s f Hin. unfold inst_get. rewrite Hi, Hk.
  rewrite !elem_of_cons in Hin.
  destruct Hin as [->|[->|[->|[->|[->|Hin]]]]]; [..|inversion Hin];
    simpl field_name; rewrite Ho by (intros e; discriminate); reflexivity.
Qed.

Lemma prototype_code_strips_instances_witness :
  exists T st',
    create prototype_state (DString "E") (DObject 0%nat) = Ok (T, st')
    /\ let i := Instance T "A" (VString "meta") VUndefined "at test" in
       inst_get st' i FCode = VUndefined
       /\ instanceof_Error (VInstance i) = false.
Proof.
  eexists _, _.
  assert (Hc : create prototype_state (DString "E") (DObject 0%nat) = Ok _)
    by (vm_compute; reflexivity).
  split; [exact Hc|]. intros i.
  destruct (prototype_code_strips_instances _ _ _ _ _ i Hc)
    as (_ & He & _ & _ & Hf).
  - apply mem_spec. vm_compute. reflexivity.
  - reflexivity.
  - split; [|exact He]. apply Hf. left.
Defined.

(** ** Arrays as tables *)

Lemma assoc_array_props (xs : list datum) (i : nat) (x : datum) :
  xs !! i = Some x -> assoc (index_name i) (array_props xs) = Some x.
Proof.
  unfold array_props.
  assert (H : forall j, xs !! i = Some x ->
            assoc (index_name (j + i))
                  (imap (fun i x => (index_name (j + i), x)) xs) = Some x).
  { revert i. induction xs as [|y xs IH]; intros i j Hi; [discriminate|].
    simpl. rewrite Nat.add_0_r. destruct i as [|i]; simpl in Hi.
    - injection Hi as ->. rewrite Nat.add_0_r, String.eqb_refl. reflexivity.
    - destruct (String.eqb (index_name (j + S i)) (index_name j)) eqn:E.
      { apply String.eqb_eq, index_name_inj in E. lia. }
      replace (j + S i)%nat with (S j + i)%nat by lia.
      rewrite <- (IH i (S j) Hi). f_equal. apply imap_ext.
      intros k z _. simpl. f_equal. f_equal. lia. }
  intros Hi. exact (H 0%nat Hi).
Qed.

Lemma index_name_not_word (i : nat) (w : string) :
  NilZero.int_of_string w = None -> index_name i <> w.
Proof.
  intros Hw Heq. destruct (index_name_parses i) as (d & Hd).
  rewrite Heq, Hw in Hd. discriminate.
Qed.

(** X10.  An array passes for a table: [create] returns for every string
    name and every array, the declared codes are the indices of the array,
    in order, and the message of the code [i] is the element at [i]. *)
Theorem array_is_a_table (st : state) (n : string) (xs : list datum) :
  exists T,
    create st (DString n) (DArray xs)
    = Ok (T, State (heap st) (S (next_id st)))
    /\ declared st T = map index_name (seq 0 (length xs))
    /\ forall i x m c stack s,
         xs !! i = Some x ->
         run_getter s T GMessage (Instance T (index_name i) m c stack)
         = VDatum x.
Proof.
  assert (Hk : Object_keys st (TArray xs)
               = map index_name (seq 0 (length xs))) by apply array_keys.
  assert (Hw : forall w, NilZero.int_of_string w = None ->
                         w ∉ Object_keys st (TArray xs)).
  { intros w Hnone. rewrite Hk. intros Hin.
    apply list_elem_of_fmap in Hin as (i & -> & _).
    exact (index_name_not_word i _ Hnone eq_refl). }
  destruct (attach_all_returns (Object_keys st (TArray xs)) base_klass)
    as (c & Hc).
  - apply Object_keys_NoDup.
  - apply Hw. reflexivity.
  - reflexivity.
  - intros e He. apply base_member_is. intros ->.
    exact (Hw "SmartError" eq_refl He).
  - rewrite create_unfold,
      (assert_passes st "name" (DString n) "string" eq_refl),
      (assert_passes st "errors" (DArray xs) "object" eq_refl).
    cbv beta iota delta [mbind completion_bind table_of].
    rewrite Hc.
    eexists. split; [reflexivity|]. split; [exact Hk|].
    intros i x m c0 stack s Hi.
    cbn [run_getter v_errors i_code table_get].
    rewrite (assoc_array_props _ _ _ Hi). reflexivity.
Qed.

Lemma array_is_a_table_witness :
  exists T st',
    create test_state (DString "E") (DArray [DString "zero"; DString "one"])
    = Ok (T, st')
    /\ declared test_state T = ["0"; "1"]
    /\ run_getter st' T GMessage
         (Instance T "1" VUndefined VUndefined "at test") = VString "one".
Proof.
  destruct (array_is_a_table test_state "E" [DString "zero"; DString "one"])
    as (T & Hc & Hd & Hm).
  exists T, (State (heap test_state) 1).
  split; [exact Hc|]. split; [exact Hd|].
  exact (Hm 1%nat (DString "one") VUndefined VUndefined "at test" _ eq_refl).
Defined.

(** ** More on serialization *)

Lemma table_get_agree (s s' : state) (t : table) (k : string) :
  (forall l, l ∈ table_loc t -> heap s !! l = heap s' !! l) ->
  table_get s t k = table_get s' t k.
Proof.
  destruct t as [l|xs|hidden props]; simpl; [|reflexivity..].
  intros H. unfold heap_object. rewrite (H l) by left. reflexivity.
Qed.

Lemma read_agree (s s' : state) (cause : value) (k : cause_key) :
  (forall l, l ∈ match cause with
                 | VDatum (DObject l) => [l]
                 | VInstance c => table_loc (v_errors (i_type c))
                 | _ => []
                 end -> heap s !! l = heap s' !! l) ->
  read s cause k = read s' cause k.
Proof.
  destruct cause as [[]|p|c]; simpl; try reflexivity.
  - intros H. apply (table_get_agree s s' (TObject l)). exact H.
  - intros H. unfold inst_get.
    destruct (assoc _ _) as [[g|m|]|]; try reflexivity.
    destruct g; try reflexivity. simpl. apply table_get_agree. exact H.
Qed.

(** X13.  The output of [toJSON] depends on the store only through its
    footprint.  The table of the instance itself is not part of it: the
    structure has no [message], and no later change of the table changes
    what an instance serializes to. *)
Theorem toJSON_footprint (i : instance) (s s' : state) :
  (forall l, l ∈ footprint i -> heap s !! l = heap s' !! l) ->
  (toJSON i s).1 = (toJSON i s').1.
Proof.
  induction i as [T code metadata cause stack IH] using instance_cause_ind.
  intros H. rewrite !toJSON_unfold. cbv zeta. simpl i_cause.
  assert (Hr : forall k, read s cause k = read s' cause k).
  { intros k. apply read_agree. intros l Hl. apply H.
    destruct cause as [[]|p|c]; simpl in *; try exact Hl.
    apply elem_of_app. left. exact Hl. }
  destruct (nullish cause); [reflexivity|].
  rewrite Hr. destruct (truthy_value (read s' cause KIsSmartError)).
  - destruct cause as [d|p|c]; try reflexivity.
    destruct (has_toJSON c); [|reflexivity]. simpl.
    rewrite (IH c eq_refl); [reflexivity|].
    intros l Hl. apply H. simpl. apply elem_of_app. right. exact Hl.
  - unfold reduced_error. rewrite !Hr.
    destruct (instanceof_Error cause); reflexivity.
Qed.

(** The table of the test suite, changed after [MyError] was created, and an
    instance whose cause is a generic error. *)
Lemma toJSON_footprint_witness :
  let i := Instance MyError "TimedOut" (VString "meta") boom "at test" in
  let s := State (heap test_state) 1 in
  (toJSON i s).1
  = (toJSON i (assign_property s 0%nat "TimedOut" (DString "Too slow."))).1.
Proof.
  intros i s. apply (toJSON_footprint i).
  intros l Hl. inversion Hl.
Defined.

(** X14.  A generic error as the cause, one without a truthy [isSmartError]
    of its own, is reduced to three fields: its own [code] and [stack], or
    [undefined] where it has none, and its own [message], or the empty
    string that [Error.prototype] holds.  Nothing else of it is kept. *)
Theorem toJSON_generic_error (T : variant) (code : string) (metadata : value)
    (hidden : list string) (props : list (string * datum)) (stack : string)
    (s : state) :
  let this :=
    Instance T code metadata (VDatum (DError hidden props)) stack in
  truthy (default DUndefined (assoc "isSmartError" props)) = false ->
  toJSON this s =
    (Ok (JObject
           (head_fields this
            ++ [("cause",
                 JObject
                   [("code",
                     JValue (VDatum (default DUndefined
                                             (assoc "code" props))));
                    ("message",
                     JValue (VDatum (default (DString EmptyString)
                                             (assoc "message" props))));
                    ("stack",
                     JValue (VDatum (default DUndefined
                                             (assoc "stack" props))))])]
            ++ stack_field this)), s).
Proof.
  intros this Hf. rewrite toJSON_unfold. cbv zeta. simpl i_cause.
  assert (Ht : truthy_value
                 (read s (VDatum (DError hidden props)) KIsSmartError)
               = false).
  { unfold read, table_get. simpl field_name.
    destruct (assoc "isSmartError" props); [exact Hf|reflexivity]. }
  simpl nullish. cbv iota. rewrite Ht. simpl instanceof_Error. cbv iota.
  rewrite reduced_error_fields. reflexivity.
Qed.

Lemma toJSON_generic_error_witness :
  toJSON (Instance MyError "TimedOut" VUndefined boom "at test") test_state
  = (Ok (JObject
           [("name", JValue (VString "MyError"));
            ("code", JValue (VString "TimedOut"));
            ("cause",
             JObject [("code", JValue VUndefined);
                      ("message", JValue (VString "boom"));
                      ("stack", JValue VUndefined)]);
            ("stack", JValue (VString "at test"))]), test_state).
Proof.
  exact (toJSON_generic_error MyError "TimedOut" VUndefined
           ["message"; "stack"] [("message", DString "boom")] "at test"
           test_state eq_refl).
Defined.

(** X15.  Causes nest across constructors.  When the cause is an instance
    of any constructor that [create] returned (from a table without the key
    ["prototype"]), [toJSON] puts under [cause] what the cause's own
    [toJSON] returns, and throws what that call throws; the constructor of
    the outer instance plays no part. *)
Theorem toJSON_nests_created_cause (st st' : state) (name errors : datum)
    (TB : variant) (B : instance) (T : variant) (code : string)
    (metadata : value) (stack : string) (s : state) :
  create st name errors = Ok (TB, st') ->
  "prototype" ∉ declared st TB ->
  i_type B = TB ->
  let A := Instance T code metadata (VInstance B) stack in
  toJSON A s =
    (j ← (toJSON B s).1;
     Ok (JObject (head_fields A ++ [("cause", j)] ++ stack_field A)), s).
Proof.
  intros Hc Hp HB A.
  destruct (created_instance_is_smart _ _ _ _ _ B Hc Hp HB s)
    as (Hi & Hj & _).
  rewrite toJSON_unfold. cbv zeta. simpl i_cause. simpl nullish. cbv iota.
  rewrite Hi, Hj. reflexivity.
Qed.

Lemma toJSON_nests_created_cause_witness :
  let B := Instance (Foo 0) "A" (VString "meta") VUndefined "at B" in
  let A := Instance MyError "Unexpected" VUndefined (VInstance B) "at A" in
  toJSON A test_state
  = (Ok (JObject
           [("name", JValue (VString "MyError"));
            ("code", JValue (VString "Unexpected"));
            ("cause",
             JObject [("name", JValue (VString "Foo"));
                      ("code", JValue (VString "A"));
                      ("metadata", JValue (VString "meta"));
                      ("stack", JValue (VString "at B"))]);
            ("stack", JValue (VString "at A"))]), test_state).
Proof.
  intros B A.
  etransitivity.
  - apply (toJSON_nests_created_cause _ _ _ _ (Foo 0) B MyError "Unexpected"
             VUndefined "at A" test_state (create_Foo 0)).
    + apply mem_false. vm_compute. reflexivity.
    + reflexivity.
  - reflexivity.
Defined.



(** ** The accessors, [toDetailedString] and [toString] *)



(** X18.  What [toJSON] returns agrees with what the instance reads:
    [name], [code] and [stack] are the values of [i.name], [i.code] and
    [i.toDetailedString ()], [metadata] is [i.metadata] when present, and
    there is no [message] in the structure. *)
Theorem toJSON_agrees_with_reads (st st' : state) (name errors : datum)
    (T : variant) (i : instance) (s : state) (fields : list (string * json)) :
  create st name errors = Ok (T, st') ->
  "prototype" ∉ declared st T ->
  i_type i = T ->
  toJSON i s = (Ok (JObject fields), s) ->
  assoc "name" fields = Some (JValue (inst_get s i FName))
  /\ assoc "code" fields = Some (JValue (inst_get s i FCode))
  /\ assoc "stack" fields = Some (JValue (toDetailedString s i))
  /\ assoc "metadata" fields =
       (if nullish (inst_get s i FMetadata) then None
        else Some (JValue (inst_get s i FMetadata)))
  /\ assoc "message" fields = None
  /\ toDetailedString s i = VString (i_stack i).
Proof.
  intros Hc Hp Hi.
  pose proof (fun k H => create_ok_member _ _ _ _ _ k Hc Hp H) as Hm.
  assert (Hn : inst_get s i FName = VDatum (v_name T)).
  { unfold inst_get. rewrite Hi. simpl field_name.
    rewrite Hm by (intros e; discriminate). reflexivity. }
  assert (Hcode : inst_get s i FCode = VString (i_code i)).
  { unfold inst_get. rewrite Hi. simpl field_name.
    rewrite Hm by (intros e; discriminate). reflexivity. }
  assert (Hmeta : inst_get s i FMetadata = i_metadata i).
  { unfold inst_get. rewrite Hi. simpl field_name.
    rewrite Hm by (intros e; discriminate). reflexivity. }
  assert (Hstack : toDetailedString s i = VString (i_stack i)).
  { unfold toDetailedString, inst_get. rewrite Hi. simpl field_name.
    rewrite Hm by (intros e; discriminate). reflexivity. }
  rewrite Hn, Hcode, Hmeta, Hstack, <- Hi.
  rewrite toJSON_unfold. unfold head_fields, stack_field. cbv zeta.
  destruct (nullish (i_cause i)).
  { intros [= <-]. destruct (nullish (i_metadata i)); repeat split. }
  destruct (truthy_value _).
  - destruct (i_cause i) as [d|p|c]; try discriminate.
    destruct (has_toJSON c); [|discriminate].
    destruct (toJSON c s).1; simpl; [|discriminate].
    intros [= <-]. destruct (nullish (i_metadata i)); repeat split.
  - destruct (instanceof_Error _); intros [= <-];
      destruct (nullish (i_metadata i)); repeat split.
Qed.

Lemma toJSON_agrees_with_reads_witness :
  let i := Instance MyError "TimedOut" (VString "meta") VUndefined "at test" in
  toDetailedString test_state i = VString "at test".
Proof.
  intros i.
  refine (proj2 (proj2 (proj2 (proj2 (proj2
    (toJSON_agrees_with_reads _ _ _ _ MyError i test_state _ create_MyError
       _ eq_refl eq_refl)))))).
  apply mem_false. vm_compute. reflexivity.
Defined.

(** X19.  [toString] is the name, a colon and the message as the table has
    it when [toString] is called: for a declared code the entry of the
    table, converted to a string, and ["undefined"] for a code that names
    no property of the table.  The numbers inside the entry are safe
    integers, which print in plain decimal. *)
Theorem toString_of_instance (st st' : state) (n : string) (l : loc)
    (T : variant) (i : instance) (s : state) (d : datum) (m : string) :
  create st (DString n) (DObject l) = Ok (T, st') ->
  "prototype" ∉ declared st T ->
  i_type i = T ->
  table_get s (TObject l) (i_code i) = VDatum d ->
  safe_integers d = true ->
  to_string s d = Some m ->
  toString s i = Some (Ok (n ++ ": " ++ m)).
Proof.
  intros Hc Hp Hi Hd _ Hm.
  pose proof (fun k H => create_ok_member _ _ _ _ _ k Hc Hp H) as Hmem.
  assert (He : v_name T = DString n /\ v_errors T = TObject l).
  { apply create_ok in Hc as (_ & t & c & Ht & _ & -> & _).
    simpl in *. split; congruence. }
  destruct He as (Hname & Herr).
  unfold toString, inst_get. rewrite Hi. simpl field_name.
  rewrite !Hmem by (intros e; discriminate).
  unfold base_klass. simpl assoc. cbv iota. unfold run_getter.
  rewrite Hname, Herr, Hd. simpl. rewrite Hm. reflexivity.
Qed.

Lemma toString_of_instance_witness :
  let s := State (heap test_state) 1 in
  toString s (Instance MyError "TimedOut" (VString "ignored-meta") VUndefined
                "at test")
  = Some (Ok "MyError: The operation timed out.")
  /\ toString s (Instance MyError "Missing" VUndefined VUndefined "at test")
     = Some (Ok "MyError: undefined").
Proof.
  intros s. split.
  - refine (toString_of_instance _ _ "MyError" 0%nat MyError
              (Instance MyError "TimedOut" (VString "ignored-meta")
                 VUndefined "at test")
              s (DString "The operation timed out.") _ create_MyError _
              eq_refl eq_refl eq_refl eq_refl).
    apply mem_false. vm_compute. reflexivity.
  - refine (toString_of_instance _ _ "MyError" 0%nat MyError
              (Instance MyError "Missing" VUndefined VUndefined "at test")
              s DUndefined _ create_MyError _ eq_refl eq_refl eq_refl
              eq_refl).
    apply mem_false. vm_compute. reflexivity.
Defined.

Lemma toJSON_returns_witness :
  let B := Instance MyError "TimedOut" VUndefined boom "at B" in
  let A := Instance MyError "Unexpected" VUndefined (VInstance B) "at A" in
  exists j, toJSON A test_state = (Ok j, test_state).
Proof.
  intros B A. apply (proj1 (toJSON_returns A test_state)). reflexivity.
Defined.

Lemma toJSON_keys_witness :
  let i := Instance MyError "TimedOut" (VString "meta") boom "at test" in
  match (toJSON i test_state).1 with
  | Ok (JObject fields) =>
      map fst fields = ["name"; "code"; "metadata"; "cause"; "stack"]
  | _ => False
  end.
Proof.
  intros i. exact (toJSON_keys i test_state _ eq_refl).
Defined.

(** X20.  On a constructor whose table has neither the key ["prototype"] nor
    the key ["super_"], the low-level constructor accepts every code, and
    on what it builds the predicate of a declared code [K] is [true] iff the
    stored code is [K]: at most one predicate holds, and none when the
    stored code is not declared. *)
Theorem per_code_predicates (st st' : state) (name errors : datum)
    (T : variant) (code : string) (metadata cause : value) (stack : string) :
  create st name errors = Ok (T, st') ->
  "prototype" ∉ declared st T ->
  "super_" ∉ declared st T ->
  exists i,
    SmartError T code metadata cause stack = Ok i
    /\ (forall s K, K ∈ declared st T ->
          (inst_get s i (FIs K) = VBool true <-> code = K)
          /\ (inst_get s i (FIs K) = VBool false <-> code <> K))
    /\ (forall s K K', K ∈ declared st T -> K' ∈ declared st T ->
          inst_get s i (FIs K) = VBool true ->
          inst_get s i (FIs K') = VBool true -> K = K')
    /\ (code ∉ declared st T ->
        forall s K, K ∈ declared st T -> inst_get s i (FIs K) = VBool false).
Proof.
  intros Hc Hproto Hsuper.
  destruct (is_predicates_of_constructed _ _ _ _ _ code metadata cause stack
              Hc Hproto Hsuper) as (i & Hi & _ & His).
  exists i. split; [exact Hi|].
  assert (Hiff : forall s K, K ∈ declared st T ->
            (inst_get s i (FIs K) = VBool true <-> code = K)
            /\ (inst_get s i (FIs K) = VBool false <-> code <> K)).
  { intros s K HK. rewrite (His s K HK).
    destruct (String.eqb code K) eqn:E.
    - apply String.eqb_eq in E. split; split; auto; try discriminate.
      intros H. contradiction.
    - apply String.eqb_neq in E. split; split; auto; try discriminate.
      intros H. contradiction. }
  split; [exact Hiff|]. split.
  - intros s K K' HK HK' H H'.
    apply (Hiff s K HK) in H. apply (Hiff s K' HK') in H'. congruence.
  - intros Hout s K HK. apply (Hiff s K HK). intros ->. contradiction.
Qed.

Lemma per_code_predicates_witness :
  exists i,
    SmartError MyError "TimedOut" VUndefined VUndefined "at test" = Ok i
    /\ inst_get test_state i (FIs "TimedOut") = VBool true
    /\ inst_get test_state i (FIs "Unexpected") = VBool false.
Proof.
  destruct (per_code_predicates _ _ _ _ MyError "TimedOut" VUndefined
              VUndefined "at test" create_MyError) as (i & Hi & Hiff & _).
  - apply mem_false. vm_compute. reflexivity.
  - apply mem_false. vm_compute. reflexivity.
  - exists i. split; [exact Hi|]. split.
    + apply (Hiff test_state "TimedOut"); [|reflexivity].
      apply mem_spec. vm_compute. reflexivity.
    + apply (Hiff test_state "Unexpected"); [|discriminate].
      apply mem_spec. vm_compute. reflexivity.
Defined.
